(** * image-storage-webapp: the backend facade and the page controller

    A shallow embedding of [src/api/appwrite.ts] (the facade over the
    backend-as-a-service SDK), of [Home.tsx] (page controller and gallery)
    and of [UploadPicture.tsx], [SearchBar.tsx] and [ImageCard.tsx].

    Asynchronous functions are state transformers over a [World] that holds
    the remote store, the clock, the React state of the components and a
    chronological trace of every observable effect (SDK requests, console
    output, state setters).  A rejected promise is the [Throw] outcome; a
    [try]/[catch] block is [try_catch]. *)

From Stdlib Require Import String Ascii List ZArith Bool Lia.
Import ListNotations.
Open Scope string_scope.
Open Scope Z_scope.
Open Scope list_scope.

(** ** JavaScript values *)

(** A parameter typed [string] or [Date] can still hold [null] or
    [undefined] at run time; both facade validations test for it. *)
Inductive Nullable (A : Type) : Type :=
| Undefined
| Null
| Val (a : A).
Arguments Undefined {A}.
Arguments Null {A}.
Arguments Val {A} a.

(** [x == null]: true of [null] and [undefined] only. *)
Definition loose_null {A} (x : Nullable A) : bool :=
  match x with
  | Val _ => false
  | _ => true
  end.

(** [!s] on a string-or-absent value: absent values and the empty string
    are falsy. *)
Definition falsy (s : Nullable string) : bool :=
  match s with
  | Val v => (v =? "")%string
  | _ => true
  end.

(** A [Date] object: a time value in milliseconds, or an invalid date whose
    [getTime()] is [NaN]. *)
Inductive JsDate :=
| ValidDate (ms : Z)
| InvalidDate.

(** The string [toISOString()] returns, kept as the instant it denotes. *)
Inductive IsoString := Iso (ms : Z).

(** [d.getTime() > n]; a comparison with [NaN] is false. *)
Definition getTime_gt (d : JsDate) (n : Z) : bool :=
  match d with
  | ValidDate ms => n <? ms
  | InvalidDate => false
  end.

(** ** Data model *)

(** A browser [File]. *)
Record File := mkFile { name : string; content : string }.

(** A blob of the storage bucket. *)
Record StoredFile := mkStored { sfId : string; sfName : string; sfContent : string }.

(** The attributes the facade sends to [createDocument]. *)
Record DocData := mkData {
  dImageId : string;
  dImageName : string;
  dCreatedAt : IsoString;
  dImageUrl : string
}.

(** A document of the collection: [$id] and its attributes. *)
Record Document := mkDoc { docId : string; docData : DocData }.

(** [interface/Image.ts]. *)
Record Image := mkImage {
  imageName : string;
  createdAt : IsoString;
  imageId : string;
  imageUrl : string;
  documentId : string
}.

(** The environment-supplied configuration. *)
Record Config := mkConfig {
  ENDPOINT : string;
  PROJECT : string;
  DATABASE_ID : string;
  COLLECTION_ID : string;
  BUCKET_ID : string
}.

(** ** Effects *)

(** The two query builders the facade uses. *)
Inductive Query :=
| StartsWith (attribute value : string)
| Equal (attribute value : string).

(** The requests sent to the service. *)
Inductive Request :=
| ListDocuments (queries : list Query)
| ListFiles (queries : list Query)
| CreateFile (fileId : string) (file : File)
| CreateDocument (id : string) (data : DocData)
| DeleteDocument (id : string)
| DeleteFile (id : string).

(** What can be thrown: a failed request, or [toISOString] on an invalid
    date. *)
Inductive Exn :=
| AppwriteException (r : Request)
| RangeError.

(** The values printed after the message of a console line. *)
Inductive LogArg :=
| ArgStr (s : string)
| ArgNum (n : Z)
| ArgExn (e : Exn).

(** The observable effects: requests with their outcome, console lines,
    calls of the state setters and of the timer functions. *)
Inductive Event :=
| Call (r : Request) (ok : bool)
| ConsoleLog (msg : string) (args : list LogArg)
| ConsoleError (msg : string) (args : list LogArg)
| SetTotalImageNumber (n : Z)
| SetSearchImage (s : string)
| SetDebouncedSearchTerm (s : string)
| SetLoading (b : bool)
| SetRefreshFetch (b : bool)
| SetImageList (l : list Image)
| SetToUpload (b : bool)
| SetImage (f : option File)
| SetTimeout (deadline : Z)
| ClearTimeout.

(** A pending timeout of the browser: the handle [setTimeout] returned,
    the time it is due, and the [searchImage] its callback closed over. *)
Record Timeout := mkTimeout {
  handle : Z;
  deadline : Z;
  captured : string
}.

(** The timeouts of the page: those pending, in the order they were set;
    the number of handles issued so far; and the constant [handler] of
    the last run of the debounce effect, which its cleanup closes over.
    A timeout stays pending until it fires or is cleared. *)
Record Timers := mkTimers {
  pending : list Timeout;
  issued : Z;
  handler : option Z
}.

Definition noTimers : Timers := mkTimers [] 0 None.

(** State of [Home], with the timeouts its debounce effect has set. *)
Record HomeState := mkHome {
  totalImageNumber : Z;
  searchImage : string;
  debouncedSearchTerm : string;
  loading : bool;
  refreshFetch : bool;
  imageList : list Image;
  timers : Timers
}.

(** State of [UploadPicture]. *)
Record UploadState := mkUpload {
  toUpload : bool;
  image : option File
}.

(** The store of the service, the requests it will reject, the clock, the
    trace so far, and the state of the two components. *)
Record World := mkWorld {
  env : Config;
  files : list StoredFile;
  docs : list Document;
  faults : list bool;
  now : Z;
  trace : list Event;
  home : HomeState;
  upload : UploadState
}.

(** A promise is fulfilled with a value or rejected with an exception. *)
Inductive Outcome (A : Type) : Type :=
| Ok (a : A)
| Throw (e : Exn).
Arguments Ok {A} a.
Arguments Throw {A} e.

(** Computations: the world is threaded through, also past a throw. *)
Definition M (A : Type) : Type := World -> Outcome A * World.

Definition ret {A} (a : A) : M A := fun w => (Ok a, w).

Definition bind {A B} (c : M A) (k : A -> M B) : M B :=
  fun w =>
    match c w with
    | (Ok a, w1) => k a w1
    | (Throw e, w1) => (Throw e, w1)
    end.

Definition throw {A} (e : Exn) : M A := fun w => (Throw e, w).

(** [try { body } catch (error) { handler }] *)
Definition try_catch {A} (body : M A) (handler : Exn -> M A) : M A :=
  fun w =>
    match body w with
    | (Ok a, w1) => (Ok a, w1)
    | (Throw e, w1) => handler e w1
    end.

Declare Scope m_scope.
Delimit Scope m_scope with m.
Notation "x <- c ;; k" := (bind c (fun x => k))
  (at level 61, c at next level, right associativity) : m_scope.
Notation "c ;; k" := (bind c (fun _ => k))
  (at level 61, right associativity) : m_scope.
Open Scope m_scope.

(** The world a computation leaves, and how it settles. *)
Definition run {A} (c : M A) (w : World) : World := snd (c w).
Definition result {A} (c : M A) (w : World) : Outcome A := fst (c w).

(** *** World updates *)

Definition set_files (fs : list StoredFile) (w : World) : World :=
  mkWorld (env w) fs (docs w) (faults w) (now w) (trace w) (home w) (upload w).
Definition set_docs (ds : list Document) (w : World) : World :=
  mkWorld (env w) (files w) ds (faults w) (now w) (trace w) (home w) (upload w).
Definition set_faults (fl : list bool) (w : World) : World :=
  mkWorld (env w) (files w) (docs w) fl (now w) (trace w) (home w) (upload w).
Definition set_now (t : Z) (w : World) : World :=
  mkWorld (env w) (files w) (docs w) (faults w) t (trace w) (home w) (upload w).
Definition set_home (h : HomeState) (w : World) : World :=
  mkWorld (env w) (files w) (docs w) (faults w) (now w) (trace w) h (upload w).
Definition set_upload (u : UploadState) (w : World) : World :=
  mkWorld (env w) (files w) (docs w) (faults w) (now w) (trace w) (home w) u.
Definition emit (e : Event) (w : World) : World :=
  mkWorld (env w) (files w) (docs w) (faults w) (now w) (trace w ++ [e]) (home w) (upload w).

(** Appends an event to the trace. *)
Definition tell (e : Event) : M unit := fun w => (Ok tt, emit e w).

(** *** Console *)

Definition console_log (msg : string) (args : list LogArg) : M unit :=
  tell (ConsoleLog msg args).
Definition console_error (msg : string) (args : list LogArg) : M unit :=
  tell (ConsoleError msg args).

(** *** Clock *)

(** [Date.now()] *)
Definition Date_now : M Z := fun w => (Ok (now w), w).
(** [new Date()] *)
Definition new_Date : M JsDate := fun w => (Ok (ValidDate (now w)), w).
(** [d.toISOString()] throws a [RangeError] on an invalid date. *)
Definition toISOString (d : JsDate) : M IsoString :=
  match d with
  | ValidDate ms => ret (Iso ms)
  | InvalidDate => throw RangeError
  end.

(** ** The backend service *)

(** The SDK of the backend-as-a-service platform is an external package.
    Its operations are modelled from the interface of spec section 6: a
    blob store with existence check by name, create and delete; a document
    store with list (optionally filtered by a prefix), create and delete.
    The bucket, database and collection identifiers are the constants of
    [Config] and stay implicit in the requests.  Matching is exact on
    characters, results keep the order of the store, and a list request
    returns every match.  Any request can fail: [faults] holds, per
    request still to come, whether the service rejects it; a rejected
    request changes nothing in the store. *)

(** A run of [n] digits. *)
Fixpoint zeros (n : nat) : string :=
  match n with
  | O => ""
  | S k => String "0" (zeros k)
  end.

(** Modelled from the spec: a generated identifier is longer than, hence
    different from, every one in use. *)
Definition fresh_id (used : list string) : string :=
  String "u" (zeros (list_max (map String.length used))).

(** The string attributes of a document and of a blob that a query can
    name. *)
Definition doc_attribute (a : string) (d : Document) : option string :=
  if (a =? "$id")%string then Some (docId d)
  else if (a =? "imageId")%string then Some (dImageId (docData d))
  else if (a =? "imageName")%string then Some (dImageName (docData d))
  else if (a =? "imageUrl")%string then Some (dImageUrl (docData d))
  else None.

Definition file_attribute (a : string) (f : StoredFile) : option string :=
  if (a =? "$id")%string then Some (sfId f)
  else if (a =? "name")%string then Some (sfName f)
  else None.

(** [Query.startsWith(a, v)] and [Query.equal(a, v)] on one item. *)
Definition holds {A} (attr : string -> A -> option string) (x : A) (q : Query) : bool :=
  match q with
  | StartsWith a v =>
      match attr a x with
      | Some s => String.prefix v s
      | None => false
      end
  | Equal a v =>
      match attr a x with
      | Some s => (s =? v)%string
      | None => false
      end
  end.

(** The items that satisfy every query, in their order. *)
Definition select {A} (attr : string -> A -> option string) (qs : list Query)
    (l : list A) : list A :=
  filter (fun x => forallb (holds attr x) qs) l.

(** The responses of the two list requests. *)
Record DocumentList := mkDocumentList { total : Z; documents : list Document }.
Record FileList := mkFileList { totalFiles : Z; listedFiles : list StoredFile }.

(** Whether the service rejects the next request. *)
Definition next_fails (w : World) : bool := hd false (faults w).

(** The world once that request is spent. *)
Definition pop_fault (w : World) : World := set_faults (tl (faults w)) w.

(** Modelled from the spec: one round trip to the service, which rejects
    the request when [faults] says so or when it cannot be served. *)
Definition request {A} (r : Request) (serve : World -> option (A * World)) : M A :=
  fun w =>
    let w0 := pop_fault w in
    if next_fails w
    then (Throw (AppwriteException r), emit (Call r false) w0)
    else
      match serve w0 with
      | Some (a, w1) => (Ok a, emit (Call r true) w1)
      | None => (Throw (AppwriteException r), emit (Call r false) w0)
      end.

(** Modelled from the spec:
    [database.listDocuments(DATABASE_ID, COLLECTION_ID, queries)] returns
    the documents that satisfy every query, in the order of the
    collection, and their number. *)
Definition listDocuments (queries : list Query) : M DocumentList :=
  request (ListDocuments queries) (fun w =>
    let found := select doc_attribute queries (docs w) in
    Some (mkDocumentList (Z.of_nat (length found)) found, w)).

(** Modelled from the spec: [storage.listFiles(BUCKET_ID, queries)],
    likewise on the blobs of the bucket. *)
Definition listFiles (queries : list Query) : M FileList :=
  request (ListFiles queries) (fun w =>
    let found := select file_attribute queries (files w) in
    Some (mkFileList (Z.of_nat (length found)) found, w)).

(** A blob, a document of that identifier exists. *)
Definition has_file (id : string) (w : World) : bool :=
  existsb (fun f => (sfId f =? id)%string) (files w).
Definition has_doc (id : string) (w : World) : bool :=
  existsb (fun d => (docId d =? id)%string) (docs w).

(** Modelled from the spec: [storage.createFile(BUCKET_ID, fileId, file)]
    stores the blob; the identifier ["unique()"] asks the service to
    generate one, and an identifier in use is refused. *)
Definition createFile (fileId : string) (file : File) : M StoredFile :=
  request (CreateFile fileId file) (fun w =>
    let id := if (fileId =? "unique()")%string
              then fresh_id (map sfId (files w)) else fileId in
    if has_file id w then None
    else
      let stored := mkStored id (name file) (content file) in
      Some (stored, set_files (files w ++ [stored]) w)).

(** Modelled from the spec: [ID.unique()]. *)
Definition ID_unique : M string :=
  fun w => (Ok (fresh_id (map docId (docs w))), w).

(** Modelled from the spec:
    [database.createDocument(DATABASE_ID, COLLECTION_ID, id, data)] appends
    the document; an identifier in use is refused. *)
Definition createDocument (id : string) (data : DocData) : M Document :=
  request (CreateDocument id data) (fun w =>
    if has_doc id w then None
    else
      let doc := mkDoc id data in
      Some (doc, set_docs (docs w ++ [doc]) w)).

(** Modelled from the spec:
    [database.deleteDocument(DATABASE_ID, COLLECTION_ID, id)] removes the
    document of that identifier and fails when there is none. *)
Definition deleteDocument (id : string) : M unit :=
  request (DeleteDocument id) (fun w =>
    if has_doc id w
    then Some (tt, set_docs (filter (fun d => negb (docId d =? id)%string) (docs w)) w)
    else None).

(** Modelled from the spec: [storage.deleteFile(BUCKET_ID, id)] removes
    the blob of that identifier and fails when there is none. *)
Definition deleteFile (id : string) : M unit :=
  request (DeleteFile id) (fun w =>
    if has_file id w
    then Some (tt, set_files (filter (fun f => negb (sfId f =? id)%string) (files w)) w)
    else None).

(** Modelled from the spec: [storage.getFileView(BUCKET_ID, fileId)]
    resolves the view URL of a blob from its identifier, without a round
    trip. *)
Definition fileViewUrl (c : Config) (fileId : string) : string :=
  (ENDPOINT c ++ "/storage/buckets/" ++ BUCKET_ID c
   ++ "/files/" ++ fileId ++ "/view?project=" ++ PROJECT c)%string.

Definition getFileView (fileId : string) : M string :=
  fun w => (Ok (fileViewUrl (env w) fileId), w).

(** ** The facade: [api/appwrite.ts] *)

(** [getTotalPicturesCount]: the total of the unfiltered list, or 0 when
    the request fails. *)
Definition getTotalPicturesCount : M Z :=
  try_catch
    (response <- listDocuments [] ;;
     ret (total response))
    (fun error =>
       console_error "Error fetching total pictures count:" [ArgExn error] ;;
       ret 0).

(** The object [fetchPictures] builds from a document. *)
Definition toImage (doc : Document) : Image :=
  {| documentId := docId doc;
     imageId := dImageId (docData doc);
     imageName := dImageName (docData doc);
     createdAt := dCreatedAt (docData doc);
     imageUrl := dImageUrl (docData doc) |}.

(** [fetchPictures]: a truthy [query] is sent as a prefix filter on
    [imageName]; the result is [undefined] when the request fails. *)
Definition fetchPictures (query : string) : M (Nullable (list Image)) :=
  try_catch
    (console_log "Fetching pictures with query:" [ArgStr query] ;;
     response <- (if negb (query =? "")%string
                  then listDocuments [StartsWith "imageName" query]
                  else listDocuments []) ;;
     ret (Val (map toImage (documents response))))
    (fun error =>
       console_error "Error fetching all pictures:" [ArgExn error] ;;
       ret Undefined).

(** [uploadPicture]: the result is [null] when a blob of that name exists
    or a request fails. *)
Definition uploadPicture (file : File) : M (Nullable string) :=
  try_catch
    (checkStorage <- listFiles [Equal "name" (name file)] ;;
     if 0 <? totalFiles checkStorage
     then
       console_error "File with the same name already exists in storage." [] ;;
       ret Null
     else
       response <- createFile "unique()" file ;;
       ret (Val (sfId response)))
    (fun error =>
       console_error "Error uploading picture:" [ArgExn error] ;;
       ret Null).

(** [updatePictureDatabase]: the three [== null] tests, then the date
    against the clock; the arguments of [createDocument] are evaluated
    from left to right. *)
Definition updatePictureDatabase (imageId imageName : Nullable string)
    (createdAt : Nullable JsDate) : M unit :=
  try_catch
    (match imageId, imageName, createdAt with
     | Val imageId, Val imageName, Val createdAt =>
         t <- Date_now ;;
         if getTime_gt createdAt t
         then console_error "Invalid parameters for updating picture database." []
         else
           getImageUrl <- getFileView imageId ;;
           id <- ID_unique ;;
           iso <- toISOString createdAt ;;
           createDocument id
             {| dImageId := imageId;
                dImageName := imageName;
                dCreatedAt := iso;
                dImageUrl := getImageUrl |} ;;
           console_log "Picture database updated successfully." []
     | _, _, _ =>
         (* one of the three [== null] tests holds *)
         console_error "Invalid parameters for updating picture database." []
     end)
    (fun error =>
       console_error "Error updating picture database:" [ArgExn error]).

(** A truthy string, if the value is one. *)
Definition truthy (s : Nullable string) : option string :=
  match s with
  | Val v => if falsy s then None else Some v
  | _ => None
  end.

(** [deletePicture] *)
Definition deletePicture (imageId documentId : Nullable string) : M unit :=
  try_catch
    (match truthy imageId, truthy documentId with
     | Some imageId, Some documentId =>
         deleteDocument documentId ;;
         deleteFile imageId
     | _, _ =>
         (* [!imageId || !documentId] *)
         console_error "Image ID is required to delete a picture." []
     end)
    (fun error =>
       console_error "Error deleting picture:" [ArgExn error]).

(** ** React state *)

(** Field updates of [HomeState]. *)
Definition upd_totalImageNumber (n : Z) (h : HomeState) : HomeState :=
  mkHome n (searchImage h) (debouncedSearchTerm h) (loading h) (refreshFetch h)
    (imageList h) (timers h).
Definition upd_searchImage (s : string) (h : HomeState) : HomeState :=
  mkHome (totalImageNumber h) s (debouncedSearchTerm h) (loading h) (refreshFetch h)
    (imageList h) (timers h).
Definition upd_debouncedSearchTerm (s : string) (h : HomeState) : HomeState :=
  mkHome (totalImageNumber h) (searchImage h) s (loading h) (refreshFetch h)
    (imageList h) (timers h).
Definition upd_loading (b : bool) (h : HomeState) : HomeState :=
  mkHome (totalImageNumber h) (searchImage h) (debouncedSearchTerm h) b (refreshFetch h)
    (imageList h) (timers h).
Definition upd_refreshFetch (b : bool) (h : HomeState) : HomeState :=
  mkHome (totalImageNumber h) (searchImage h) (debouncedSearchTerm h) (loading h) b
    (imageList h) (timers h).
Definition upd_imageList (l : list Image) (h : HomeState) : HomeState :=
  mkHome (totalImageNumber h) (searchImage h) (debouncedSearchTerm h) (loading h)
    (refreshFetch h) l (timers h).
Definition upd_timers (t : Timers) (h : HomeState) : HomeState :=
  mkHome (totalImageNumber h) (searchImage h) (debouncedSearchTerm h) (loading h)
    (refreshFetch h) (imageList h) t.

(** The setters; the first and the refresh one take an updater function,
    as their call sites do. *)
Definition setTotalImageNumber (f : Z -> Z) : M unit :=
  fun w =>
    let n := f (totalImageNumber (home w)) in
    (Ok tt, emit (SetTotalImageNumber n) (set_home (upd_totalImageNumber n (home w)) w)).
Definition setSearchImage (s : string) : M unit :=
  fun w => (Ok tt, emit (SetSearchImage s) (set_home (upd_searchImage s (home w)) w)).
Definition setDebouncedSearchTerm (s : string) : M unit :=
  fun w =>
    (Ok tt, emit (SetDebouncedSearchTerm s) (set_home (upd_debouncedSearchTerm s (home w)) w)).
Definition setLoading (b : bool) : M unit :=
  fun w => (Ok tt, emit (SetLoading b) (set_home (upd_loading b (home w)) w)).
Definition setRefreshFetch (f : bool -> bool) : M unit :=
  fun w =>
    let b := f (refreshFetch (home w)) in
    (Ok tt, emit (SetRefreshFetch b) (set_home (upd_refreshFetch b (home w)) w)).
Definition setImageList (l : list Image) : M unit :=
  fun w => (Ok tt, emit (SetImageList l) (set_home (upd_imageList l (home w)) w)).
Definition setToUpload (b : bool) : M unit :=
  fun w =>
    (Ok tt, emit (SetToUpload b) (set_upload (mkUpload b (image (upload w))) w)).
Definition setImage (f : option File) : M unit :=
  fun w =>
    (Ok tt, emit (SetImage f) (set_upload (mkUpload (toUpload (upload w)) f) w)).

(** [setTimeout(() => setDebouncedSearchTerm(searchImage), delay)]: one
    more pending timeout, under a handle not issued before, which is
    returned. *)
Definition setTimeout (captured : string) (delay : Z) : M Z :=
  fun w =>
    let t := timers (home w) in
    let k := issued t + 1 in
    let due := now w + delay in
    (Ok k,
     emit (SetTimeout due)
       (set_home
          (upd_timers (mkTimers (pending t ++ [mkTimeout k due captured]) k (handler t))
             (home w)) w)).

(** [clearTimeout(k)]: the pending timeout of that handle, if there is
    one, is dropped; the others stay. *)
Definition clearTimeout (k : Z) : M unit :=
  fun w =>
    let t := timers (home w) in
    (Ok tt,
     emit ClearTimeout
       (set_home
          (upd_timers
             (mkTimers (filter (fun tm => negb (handle tm =? k)) (pending t))
                (issued t) (handler t))
             (home w)) w)).

(** [const handler = ...]: the handle the cleanup of this run will
    clear. *)
Definition keep_handler (k : Z) : M unit :=
  fun w =>
    let t := timers (home w) in
    (Ok tt, set_home (upd_timers (mkTimers (pending t) (issued t) (Some k)) (home w)) w).

(** The state a render closes over. *)
Definition get_home : M HomeState := fun w => (Ok (home w), w).
Definition get_upload : M UploadState := fun w => (Ok (upload w), w).

(** [p.finally(f)] *)
Definition finally {A} (p : M A) (f : M unit) : M A :=
  fun w =>
    match p w with
    | (r, w1) =>
        match f w1 with
        | (Ok _, w2) => (r, w2)
        | (Throw e, w2) => (Throw e, w2)
        end
    end.

(** ** [Home.tsx] *)

Section GetAllImages.
(** The fetch [getAllImages] awaits; [fetchPictures] in the component. *)
Variable fetch : string -> M (Nullable (list Image)).

(** [!response || response.length === 0] *)
Definition empty_response (response : Nullable (list Image)) : bool :=
  match response with
  | Val l => (length l =? 0)%nat
  | _ => true
  end.

(** [getAllImages] *)
Definition getAllImagesWith (searchTerm : string) : M unit :=
  setLoading true ;;
  try_catch
    (response <- fetch searchTerm ;;
     if empty_response response
     then
       console_error "No images found" [] ;;
       setImageList []
     else
       setImageList (match response with Val l => l | _ => [] end))
    (fun error =>
       console_error "Error fetching images:" [ArgExn error]).

(** The effect on [debouncedSearchTerm, totalImageNumber, refreshFetch]. *)
Definition fetchEffectWith : M unit :=
  h <- get_home ;;
  getAllImagesWith (debouncedSearchTerm h) ;;
  setLoading false.
End GetAllImages.

(** The two as the component has them. *)
Definition getAllImages : string -> M unit := getAllImagesWith fetchPictures.
Definition fetchEffect : M unit := fetchEffectWith fetchPictures.

(** The effect on [searchImage]. *)
Definition debounceEffect : M unit :=
  h <- get_home ;;
  handler <- setTimeout (searchImage h) 1000 ;;
  keep_handler handler.

(** Its cleanup, [clearTimeout(handler)], with the handler of the run it
    cleans up; before the effect has run there is nothing to clean. *)
Definition debounceCleanup : M unit :=
  h <- get_home ;;
  match handler (timers h) with
  | Some k => clearTimeout k
  | None => ret tt
  end.

(** After a state change React renders again and runs, in the order of
    their declaration, the effects one of whose dependencies changed; an
    effect that ran before is cleaned up first. *)
Definition homeEffects (prev : HomeState) : M unit :=
  h <- get_home ;;
  (if (searchImage h =? searchImage prev)%string
   then ret tt
   else debounceCleanup ;; debounceEffect) ;;
  (if (debouncedSearchTerm h =? debouncedSearchTerm prev)%string
      && (totalImageNumber h =? totalImageNumber prev)
      && Bool.eqb (refreshFetch h) (refreshFetch prev)
   then ret tt
   else fetchEffect).

(** First render of [Home]: both effects run. *)
Definition mountHome : M unit :=
  debounceEffect ;;
  fetchEffect.

(** [SearchBar.tsx]: [onChange={(e) => setSearchImage(e.target.value)}]. *)
Definition onChange (value : string) : M unit :=
  prev <- get_home ;;
  setSearchImage value ;;
  homeEffects prev.

(** The callback of the debounce timeout. *)
Definition timeoutCallback (captured : string) : M unit :=
  prev <- get_home ;;
  setDebouncedSearchTerm captured ;;
  homeEffects prev.

(** The order in which due timeouts fire: by deadline, and in the order
    they were set when two are due together. *)
Fixpoint insert_due (tm : Timeout) (l : list Timeout) : list Timeout :=
  match l with
  | [] => [tm]
  | x :: rest =>
      if deadline tm <=? deadline x
      then tm :: x :: rest
      else x :: insert_due tm rest
  end.

Definition firing_order (l : list Timeout) : list Timeout :=
  fold_right insert_due [] l.

(** A timeout fires, unless it was cleared meanwhile: it is no longer
    pending, the clock is at its deadline at least, and its callback
    runs. *)
Definition fire (tm : Timeout) : M unit :=
  fun w =>
    let t := timers (home w) in
    if existsb (fun x => handle x =? handle tm) (pending t)
    then
      timeoutCallback (captured tm)
        (set_now (Z.max (now w) (deadline tm))
           (set_home
              (upd_timers
                 (mkTimers (filter (fun x => negb (handle x =? handle tm)) (pending t))
                    (issued t) (handler t))
                 (home w)) w))
    else (Ok tt, w).

Fixpoint fire_all (l : list Timeout) : M unit :=
  match l with
  | [] => ret tt
  | tm :: rest =>
      fire tm ;;
      fire_all rest
  end.

(** Time passes until [t]: the timeouts due by then fire, each at its
    deadline.  (The callback of this page sets no timeout, so those
    pending at the start are all that can fire.) *)
Definition advance (t : Z) : M unit :=
  h <- get_home ;;
  fire_all (firing_order (filter (fun tm => deadline tm <=? t) (pending (timers h)))) ;;
  fun w => (Ok tt, set_now (Z.max (now w) t) w).

(** *** The gallery *)

(** The props of a card, less the setter. *)
Record ImageCardProps := mkCard {
  cDocumentId : string;
  cId : string;
  cName : string;
  cImageUrl : string;
  cCreationDate : IsoString
}.

(** What the gallery can render. *)
Inductive Element :=
| ImageCard (key : string) (props : ImageCardProps)
| Img (src alt : string)
| LoadingHeading.

(** The grid: a card per image, or the placeholder. *)
Definition renderGrid (imageList : list Image) : list Element :=
  if (0 <? length imageList)%nat
  then map (fun image =>
              ImageCard (imageId image)
                {| cDocumentId := documentId image;
                   cId := imageId image;
                   cName := imageName image;
                   cImageUrl := imageUrl image;
                   cCreationDate := createdAt image |}) imageList
  else [Img "./no-image.png" "No images found"].

(** The gallery: the loading heading, or the grid. *)
Definition renderGallery (h : HomeState) : list Element :=
  if loading h then [LoadingHeading] else renderGrid (imageList h).

(** ** [ImageCard.tsx] *)

(** [handleDelete] *)
Definition handleDelete (props : ImageCardProps) : M unit :=
  try_catch
    (deletePicture (Val (cId props)) (Val (cDocumentId props)) ;;
     console_log "Image deleted successfully." [] ;;
     setRefreshFetch negb)
    (fun error =>
       console_error "Error deleting image:" [ArgExn error]).

(** ** [UploadPicture.tsx] *)

(** [e.target.files && e.target.files[0]] *)
Definition handleFileChange (selected : list File) : M unit :=
  match selected with
  | file :: _ =>
      setImage (Some file) ;;
      setToUpload true
  | [] => ret tt
  end.

(** [handleUpload] *)
Definition handleUpload : M unit :=
  u <- get_upload ;;
  match image u with
  | None => console_error "No image selected for upload." []
  | Some image =>
      try_catch
        (imageId <- uploadPicture image ;;
         match truthy imageId with
         | None => console_error "Failed to upload image." []
         | Some imageId =>
             date <- new_Date ;;
             updatePictureDatabase (Val imageId) (Val (name image)) (Val date) ;;
             setTotalImageNumber (fun prev => prev + 1) ;;
             console_log "Image uploaded and database updated successfully." []
         end)
        (fun error =>
           console_error "Error uploading picture:" [ArgExn error])
  end.

(** The effect on [toUpload, image, handleUpload]. *)
Definition uploadEffect : M unit :=
  u <- get_upload ;;
  if toUpload u
  then finally (handleUpload ;; setToUpload false) (setImage None)
  else ret tt.

(** ** Vocabulary of the statements *)

(** *** Traces *)

(** The requests of a trace, with their outcomes, in order. *)
Definition callOf (e : Event) : list (Request * bool) :=
  match e with
  | Call r ok => [(r, ok)]
  | _ => []
  end.

Definition calls (tr : list Event) : list (Request * bool) := flat_map callOf tr.

(** The queries of the list requests of a trace, in order. *)
Definition fetchOf (e : Event) : list (list Query) :=
  match e with
  | Call (ListDocuments qs) _ => [qs]
  | _ => []
  end.

Definition fetches (tr : list Event) : list (list Query) := flat_map fetchOf tr.

(** The setters of the fetch transition. *)
Definition sets_fetch_state (e : Event) : bool :=
  match e with
  | SetLoading _ | SetImageList _ => true
  | _ => false
  end.

(** *** The service and promises *)

(** The service accepts the next [n] requests. *)
Fixpoint accepts (n : nat) (w : World) : bool :=
  match n with
  | O => true
  | S k => negb (next_fails w) && accepts k (pop_fault w)
  end.

(** The same world with a given pattern of failing requests. *)
Definition failing (fl : list bool) (w : World) : World := set_faults fl w.

(** A promise that is fulfilled from every world. *)
Definition no_throw {A} (c : M A) : Prop :=
  forall w, exists a w', c w = (Ok a, w').

(** *** [fetchPictures] *)

(** The name of the document starts with [t]. *)
Definition startsWith (t : string) (d : Document) : bool :=
  String.prefix t (dImageName (docData d)).

(** The query [fetchPictures] sends for a term. *)
Definition queryFor (term : string) : list Query :=
  if negb (term =? "")%string then [StartsWith "imageName" term] else [].

(** *** [uploadPicture] *)

(** A blob of that name is in the bucket. *)
Definition name_taken (n : string) (w : World) : bool :=
  existsb (fun f => (sfName f =? n)%string) (files w).

Definition checkRequest (f : File) : Request := ListFiles [Equal "name" (name f)].

Definition storeRequest (f : File) : Request := CreateFile "unique()" f.

(** The blob [uploadPicture] stores for a file. *)
Definition newBlob (w : World) (f : File) : StoredFile :=
  mkStored (fresh_id (map sfId (files w))) (name f) (content f).

(** [uploadPicture] on this file returns an identifier. *)
Definition upload_succeeds (f : File) (w : World) : bool :=
  negb (name_taken (name f) w) && accepts 2 w.

(** *** [updatePictureDatabase] *)

(** The negation of the condition of its [if]. *)
Definition valid_parameters (imageId imageName : Nullable string)
    (createdAt : Nullable JsDate) (w : World) : bool :=
  negb (loose_null imageId
        || loose_null imageName
        || loose_null createdAt
        || match createdAt with
           | Val d => getTime_gt d (now w)
           | _ => false
           end).

(** The attributes, the document and the request it sends for given
    values. *)
Definition recordData (w : World) (imageId imageName : string) (ms : Z) : DocData :=
  {| dImageId := imageId;
     dImageName := imageName;
     dCreatedAt := Iso ms;
     dImageUrl := fileViewUrl (env w) imageId |}.

Definition newDocument (w : World) (imageId imageName : string) (ms : Z) : Document :=
  mkDoc (fresh_id (map docId (docs w))) (recordData w imageId imageName ms).

Definition writeRequest (w : World) (imageId imageName : string) (ms : Z) : Request :=
  CreateDocument (fresh_id (map docId (docs w))) (recordData w imageId imageName ms).

Definition rejected : Event :=
  ConsoleError "Invalid parameters for updating picture database." [].

Definition writeFailed (e : Exn) : Event :=
  ConsoleError "Error updating picture database:" [ArgExn e].

Definition written : Event :=
  ConsoleLog "Picture database updated successfully." [].

(** *** [deletePicture] *)

(** The service would carry out these deletions now. *)
Definition record_deletable (d : string) (w : World) : bool :=
  negb (next_fails w) && has_doc d w.

Definition blob_deletable (i : string) (w : World) : bool :=
  negb (next_fails w) && has_file i w.

Definition without_doc (d : string) (l : list Document) : list Document :=
  filter (fun x => negb (docId x =? d)%string) l.

Definition without_file (i : string) (l : list StoredFile) : list StoredFile :=
  filter (fun x => negb (sfId x =? i)%string) l.

Definition deleteRejected : Event :=
  ConsoleError "Image ID is required to delete a picture." [].

Definition deleteFailed (r : Request) : Event :=
  ConsoleError "Error deleting picture:" [ArgExn (AppwriteException r)].

(** *** The upload control *)

Definition uploadFailed : Event := ConsoleError "Failed to upload image." [].

Definition uploaded : Event :=
  ConsoleLog "Image uploaded and database updated successfully." [].

(** The document written for the blob [uploadPicture] stored, dated by
    the clock. *)
Definition newRecord (w : World) (f : File) : Document :=
  mkDoc (fresh_id (map docId (docs w)))
    {| dImageId := sfId (newBlob w f);
       dImageName := name f;
       dCreatedAt := Iso (now w);
       dImageUrl := fileViewUrl (env w) (sfId (newBlob w f)) |}.

(** The requests of [uploadPicture] for a file, with their outcomes: the
    existence check, then the blob unless the check fails or finds the
    name. *)
Definition uploadRequests (f : File) (w : World) : list (Request * bool) :=
  if next_fails w then [(checkRequest f, false)]
  else if name_taken (name f) w then [(checkRequest f, true)]
  else [(checkRequest f, true); (storeRequest f, negb (next_fails (pop_fault w)))].

(** The request that persists the record of an uploaded file, with its
    outcome. *)
Definition persistRequest (f : File) (w : World) : Request * bool :=
  (CreateDocument (docId (newRecord w f)) (docData (newRecord w f)),
   negb (next_fails (pop_fault (pop_fault w)))).

(** The setter of the displayed total. *)
Definition sets_total (e : Event) : bool :=
  match e with
  | SetTotalImageNumber _ => true
  | _ => false
  end.

(** The world once the user has picked a file. *)
Definition selected (f : File) (w : World) : World := run (handleFileChange [f]) w.

(** *** The page controller *)

(** What [getAllImages] shows for a response. *)
Definition shown (response : Nullable (list Image)) : list Image :=
  match response with
  | Val (x :: l) => x :: l
  | _ => []
  end.

Definition is_card (e : Element) : bool :=
  match e with
  | ImageCard _ _ => true
  | _ => false
  end.

(** The React key of an element, if it has one. *)
Definition elementKey (e : Element) : option string :=
  match e with
  | ImageCard key _ => Some key
  | _ => None
  end.

(** A keystroke at time [t] that leaves [value] in the field. *)
Definition keystroke (t : Z) (value : string) : M unit :=
  advance t ;;
  onChange value.

Fixpoint typing (keys : list (Z * string)) : M unit :=
  match keys with
  | [] => ret tt
  | (t, value) :: rest =>
      keystroke t value ;;
      typing rest
  end.

(** Every pending timeout is the one the cleanup of the debounce effect
    will clear: the state of the page between two events, once mounted or
    with no timeout set. *)
Definition tidy (w : World) : bool :=
  forallb
    (fun tm =>
       match handler (timers (home w)) with
       | Some k => handle tm =? k
       | None => false
       end)
    (pending (timers (home w))).

(** Keystrokes that follow a keystroke at time [t] which left [v]: each
    comes less than a second after the one before, and each changes the
    text, as React calls [onChange] only when the value of the field
    changed. *)
Fixpoint burst (t : Z) (v : string) (keys : list (Z * string)) : Prop :=
  match keys with
  | [] => True
  | (t', v') :: rest => t <= t' < t + 1000 /\ v' <> v /\ burst t' v' rest
  end.

(** ** Sample worlds *)

Definition sampleConfig : Config :=
  mkConfig "https://cloud.example/v1" "gallery" "main" "pictures" "images".

Definition freshHome : HomeState := mkHome 0 "" "" false false [] noTimers.

Definition idle : UploadState := mkUpload false None.

(** An empty store at time 5000; every request succeeds. *)
Definition emptyWorld : World :=
  mkWorld sampleConfig [] [] [] 5000 [] freshHome idle.

Definition catFile : File := mkFile "cat.png" "cat-bytes".

Definition dogFile : File := mkFile "dog.png" "dog-bytes".

Definition catDocument : Document :=
  mkDoc "d1" (mkData "f1" "cat.png" (Iso 4000) (fileViewUrl sampleConfig "f1")).

Definition carDocument : Document :=
  mkDoc "d2" (mkData "f2" "car.png" (Iso 4500) (fileViewUrl sampleConfig "f2")).

(** A store with two pictures, [cat.png] and [car.png]. *)
Definition catWorld : World :=
  mkWorld sampleConfig
    [mkStored "f1" "cat.png" "cat-bytes"; mkStored "f2" "car.png" "car-bytes"]
    [catDocument; carDocument] [] 5000 []
    (mkHome 2 "" "" false false [toImage catDocument; toImage carDocument] noTimers)
    idle.

(** The scenario of spec section 8: count, upload [cat.png], count, search
    [cat] and [dog], delete the record found, count. *)
Definition scenario : M (Z * Z * Nullable (list Image) * Nullable (list Image) * Z) :=
  before <- getTotalPicturesCount ;;
  handleFileChange [catFile] ;;
  uploadEffect ;;
  after <- getTotalPicturesCount ;;
  cats <- fetchPictures "cat" ;;
  dogs <- fetchPictures "dog" ;;
  match cats with
  | Val (picture :: _) =>
      deletePicture (Val (imageId picture)) (Val (documentId picture))
  | _ => ret tt
  end ;;
  final <- getTotalPicturesCount ;;
  ret (before, after, cats, dogs, final).

(** ** Further code of the components *)

(** [UploadPicture.tsx], the effect that runs once on mount:
    [getTotalPicturesCount().then(...).catch(...)].  [isMounted] is the
    flag its cleanup clears; [console.error(error)] prints the error
    alone, kept here as a line with an empty message. *)
Definition countEffect (isMounted : bool) : M unit :=
  try_catch
    (total <- getTotalPicturesCount ;;
     console_log "Total images count fetched:" [ArgNum total] ;;
     if isMounted
     then setTotalImageNumber (fun _ => total)
     else ret tt)
    (fun error =>
       console_error "" [ArgExn error]).

(** A handler of one of the child components, followed by the effects of
    [Home] that the render after it runs. *)
Definition rendering (handler : M unit) : M unit :=
  prev <- get_home ;;
  handler ;;
  homeEffects prev.

(** The delete button of a card and the upload effect, each with the
    render it causes. *)
Definition deleteFlow (props : ImageCardProps) : M unit :=
  rendering (handleDelete props).

Definition uploadFlow : M unit := rendering uploadEffect.

(** *** Vocabulary of the further statements *)

(** The rejections of [updatePictureDatabase] in a trace. *)
Definition is_rejection (e : Event) : bool :=
  match e with
  | ConsoleError msg _ =>
      (msg =? "Invalid parameters for updating picture database.")%string
  | _ => false
  end.

Definition rejections (tr : list Event) : list Event := filter is_rejection tr.

(** The card the grid shows for a stored document. *)
Definition cardOf (d : Document) : ImageCardProps :=
  mkCard (docId d) (dImageId (docData d)) (dImageName (docData d))
    (dImageUrl (docData d)) (dCreatedAt (docData d)).

(** What a fetch for [q] leaves in [imageList]. *)
Definition fetched (q : string) (w : World) : list Image :=
  if next_fails w then [] else map toImage (filter (startsWith q) (docs w)).

(** What [getTotalPicturesCount] returns. *)
Definition counted (w : World) : Z :=
  if next_fails w then 0 else Z.of_nat (length (docs w)).
(** * Properties *)

(** ** The backend model *)

Lemma filter_all {A} (p : A -> bool) (l : list A) :
  (forall x, p x = true) -> filter p l = l.
Proof.
  intro H. induction l as [|x l IH]; simpl; [reflexivity|].
  now rewrite H, IH.
Qed.

Lemma select_nil {A} (attr : string -> A -> option string) (l : list A) :
  select attr [] l = l.
Proof. unfold select. now apply filter_all. Qed.

Lemma select_imageName_prefix (t : string) (l : list Document) :
  select doc_attribute [StartsWith "imageName" t] l
  = filter (fun d => String.prefix t (dImageName (docData d))) l.
Proof.
  unfold select. apply filter_ext. intro d. simpl.
  now rewrite andb_true_r.
Qed.

Lemma select_file_name (n : string) (l : list StoredFile) :
  select file_attribute [Equal "name" n] l
  = filter (fun f => (sfName f =? n)%string) l.
Proof.
  unfold select. apply filter_ext. intro f. simpl.
  now rewrite andb_true_r.
Qed.

Lemma length_zeros (n : nat) : String.length (zeros n) = n.
Proof. induction n; simpl; congruence. Qed.

Lemma fresh_id_fresh (used : list string) : ~ In (fresh_id used) used.
Proof.
  intro Hin.
  assert (Hle : (String.length (fresh_id used) <= list_max (map String.length used))%nat).
  { pose proof (list_max_le (map String.length used)
                  (list_max (map String.length used))) as [Hall _].
    specialize (Hall (Nat.le_refl _)).
    rewrite Forall_forall in Hall. apply Hall.
    now apply in_map. }
  unfold fresh_id in Hle. simpl in Hle. rewrite length_zeros in Hle. lia.
Qed.

Lemma fresh_id_nonempty (used : list string) : fresh_id used <> "".
Proof. discriminate. Qed.

Lemma existsb_id_false {A} (key : A -> string) (id : string) (l : list A) :
  ~ In id (map key l) -> existsb (fun x => (key x =? id)%string) l = false.
Proof.
  intro Hn. induction l as [|x l IH]; simpl; [reflexivity|].
  simpl in Hn.
  destruct (String.eqb_spec (key x) id) as [E|E]; simpl.
  - exfalso. apply Hn. now left.
  - apply IH. intro Hin. apply Hn. now right.
Qed.

Lemma has_file_fresh (w : World) : has_file (fresh_id (map sfId (files w))) w = false.
Proof. apply existsb_id_false, fresh_id_fresh. Qed.

Lemma has_doc_fresh (w : World) : has_doc (fresh_id (map docId (docs w))) w = false.
Proof. apply existsb_id_false, fresh_id_fresh. Qed.

(** ** [fetchPictures] *)

Lemma startsWith_empty (d : Document) : startsWith "" d = true.
Proof. unfold startsWith. now destruct (dImageName (docData d)). Qed.

Lemma listDocuments_run (qs : list Query) (w : World) :
  listDocuments qs w =
  if next_fails w
  then (Throw (AppwriteException (ListDocuments qs)),
        emit (Call (ListDocuments qs) false) (pop_fault w))
  else (Ok (mkDocumentList (Z.of_nat (length (select doc_attribute qs (docs w))))
              (select doc_attribute qs (docs w))),
        emit (Call (ListDocuments qs) true) (pop_fault w)).
Proof. reflexivity. Qed.

Lemma fetchPictures_run (t : string) (w : World) :
  fetchPictures t w =
  let w1 := emit (ConsoleLog "Fetching pictures with query:" [ArgStr t]) w in
  if next_fails w
  then (Ok Undefined,
        emit (ConsoleError "Error fetching all pictures:"
                [ArgExn (AppwriteException (ListDocuments (queryFor t)))])
          (emit (Call (ListDocuments (queryFor t)) false) (pop_fault w1)))
  else (Ok (Val (map toImage (filter (startsWith t) (docs w)))),
        emit (Call (ListDocuments (queryFor t)) true) (pop_fault w1)).
Proof.
  unfold fetchPictures, try_catch, bind, console_log, console_error, tell, ret, queryFor.
  cbv zeta.
  destruct (String.eqb_spec t "") as [->|Hne]; cbn [negb]; rewrite listDocuments_run.
  - change (next_fails (emit _ w)) with (next_fails w).
    destruct (next_fails w); [reflexivity|].
    cbn [documents docs emit]. rewrite select_nil.
    now rewrite (filter_all (startsWith "") (docs w)) by apply startsWith_empty.
  - change (next_fails (emit _ w)) with (next_fails w).
    destruct (next_fails w); [reflexivity|].
    cbn [documents docs emit]. now rewrite select_imageName_prefix.
Qed.


(** ** Promises that never reject *)

Lemma no_throw_ret {A} (a : A) : no_throw (ret a).
Proof. intro w. now exists a, w. Qed.

Lemma no_throw_tell (e : Event) : no_throw (tell e).
Proof. intro w. now exists tt, (emit e w). Qed.

Lemma no_throw_bind {A B} (c : M A) (k : A -> M B) :
  no_throw c -> (forall a, no_throw (k a)) -> no_throw (bind c k).
Proof.
  intros Hc Hk w. unfold bind.
  destruct (Hc w) as (a & w1 & ->). apply Hk.
Qed.

Lemma no_throw_try_catch {A} (body : M A) (handler : Exn -> M A) :
  (forall e, no_throw (handler e)) -> no_throw (try_catch body handler).
Proof.
  intros Hh w. unfold try_catch.
  destruct (body w) as [[a|e] w1].
  - now exists a, w1.
  - apply Hh.
Qed.

Create HintDb no_throw.
#[local] Hint Resolve no_throw_ret no_throw_tell : no_throw.
#[local] Hint Extern 1 (no_throw (console_error _ _)) => apply no_throw_tell : no_throw.
#[local] Hint Extern 1 (no_throw (console_log _ _)) => apply no_throw_tell : no_throw.
#[local] Hint Extern 2 (no_throw (bind _ _)) => apply no_throw_bind; [|intro] : no_throw.
#[local] Hint Extern 2 (no_throw (try_catch _ _)) => apply no_throw_try_catch; intro : no_throw.

Lemma fetchPictures_no_throw (t : string) : no_throw (fetchPictures t).
Proof. unfold fetchPictures. auto with no_throw. Qed.

Lemma uploadPicture_no_throw (f : File) : no_throw (uploadPicture f).
Proof. unfold uploadPicture. auto with no_throw. Qed.

Lemma updatePictureDatabase_no_throw imageId imageName createdAt :
  no_throw (updatePictureDatabase imageId imageName createdAt).
Proof. unfold updatePictureDatabase. auto with no_throw. Qed.

Lemma deletePicture_no_throw imageId documentId :
  no_throw (deletePicture imageId documentId).
Proof. unfold deletePicture. auto with no_throw. Qed.

Lemma getTotalPicturesCount_no_throw : no_throw getTotalPicturesCount.
Proof. unfold getTotalPicturesCount. auto with no_throw. Qed.

(** ** [uploadPicture] *)

Lemma positive_count {A} (p : A -> bool) (l : list A) :
  (0 <? Z.of_nat (length (filter p l))) = existsb p l.
Proof.
  induction l as [|x l IH]; simpl; [reflexivity|].
  destruct (p x); simpl; [|exact IH].
  apply Z.ltb_lt. lia.
Qed.

Lemma listFiles_run (qs : list Query) (w : World) :
  listFiles qs w =
  if next_fails w
  then (Throw (AppwriteException (ListFiles qs)),
        emit (Call (ListFiles qs) false) (pop_fault w))
  else (Ok (mkFileList (Z.of_nat (length (select file_attribute qs (files w))))
              (select file_attribute qs (files w))),
        emit (Call (ListFiles qs) true) (pop_fault w)).
Proof. reflexivity. Qed.

Lemma createFile_unique_run (f : File) (w : World) :
  createFile "unique()" f w =
  let r := CreateFile "unique()" f in
  let stored := mkStored (fresh_id (map sfId (files w))) (name f) (content f) in
  if next_fails w
  then (Throw (AppwriteException r), emit (Call r false) (pop_fault w))
  else (Ok stored, emit (Call r true) (set_files (files w ++ [stored]) (pop_fault w))).
Proof.
  unfold createFile, request. cbv zeta.
  destruct (next_fails w); [reflexivity|].
  change ("unique()" =? "unique()")%string with true. cbv iota.
  change (files (pop_fault w)) with (files w).
  change (has_file ?i (pop_fault w)) with (has_file i w).
  now rewrite has_file_fresh.
Qed.

Lemma uploadPicture_run (f : File) (w : World) :
  uploadPicture f w =
  let failed r := ConsoleError "Error uploading picture:" [ArgExn (AppwriteException r)] in
  let stored := mkStored (fresh_id (map sfId (files w))) (name f) (content f) in
  if next_fails w
  then (Ok Null, emit (failed (checkRequest f))
                   (emit (Call (checkRequest f) false) (pop_fault w)))
  else
    let w1 := emit (Call (checkRequest f) true) (pop_fault w) in
    if name_taken (name f) w
    then (Ok Null,
          emit (ConsoleError "File with the same name already exists in storage." []) w1)
    else if next_fails w1
    then (Ok Null, emit (failed (storeRequest f))
                     (emit (Call (storeRequest f) false) (pop_fault w1)))
    else (Ok (Val (sfId stored)),
          emit (Call (storeRequest f) true)
            (set_files (files w ++ [stored]) (pop_fault w1))).
Proof.
  unfold uploadPicture, try_catch, bind. rewrite listFiles_run. cbv zeta.
  destruct (next_fails w); [reflexivity|].
  cbn [totalFiles]. rewrite select_file_name, positive_count.
  fold (name_taken (name f) w).
  destruct (name_taken (name f) w); [reflexivity|].
  rewrite createFile_unique_run. cbv zeta.
  destruct (next_fails _); reflexivity.
Qed.

(** ** [updatePictureDatabase] *)

Lemma updatePictureDatabase_invalid imageId imageName createdAt (w : World) :
  valid_parameters imageId imageName createdAt w = false ->
  updatePictureDatabase imageId imageName createdAt w = (Ok tt, emit rejected w).
Proof.
  unfold valid_parameters, updatePictureDatabase, try_catch, bind, Date_now.
  intro H. apply negb_false_iff in H.
  destruct imageId, imageName, createdAt as [| |d]; try reflexivity;
    simpl in H; try discriminate.
  rewrite H. reflexivity.
Qed.

Lemma createDocument_fresh_run (w : World) (data : DocData) :
  let id := fresh_id (map docId (docs w)) in
  createDocument id data w =
  if next_fails w
  then (Throw (AppwriteException (CreateDocument id data)),
        emit (Call (CreateDocument id data) false) (pop_fault w))
  else (Ok (mkDoc id data),
        emit (Call (CreateDocument id data) true)
          (set_docs (docs w ++ [mkDoc id data]) (pop_fault w))).
Proof.
  cbv zeta. unfold createDocument, request. cbv zeta.
  destruct (next_fails w); [reflexivity|].
  change (has_doc ?i (pop_fault w)) with (has_doc i w).
  now rewrite has_doc_fresh.
Qed.

Lemma updatePictureDatabase_valid (i n : string) (ms : Z) (w : World) :
  ms <= now w ->
  updatePictureDatabase (Val i) (Val n) (Val (ValidDate ms)) w =
  if next_fails w
  then (Ok tt, emit (writeFailed (AppwriteException (writeRequest w i n ms)))
                 (emit (Call (writeRequest w i n ms) false) (pop_fault w)))
  else (Ok tt, emit written
                 (emit (Call (writeRequest w i n ms) true)
                    (set_docs (docs w ++ [newDocument w i n ms]) (pop_fault w)))).
Proof.
  intro Hle.
  unfold updatePictureDatabase, try_catch, bind, Date_now, getFileView, ID_unique,
    getTime_gt.
  assert (Hlt : (now w <? ms) = false) by (apply Z.ltb_ge; lia).
  rewrite Hlt. cbn [toISOString ret].
  pose proof (createDocument_fresh_run w (recordData w i n ms)) as Hc.
  cbv zeta in Hc. unfold recordData in Hc at 1. rewrite Hc.
  destruct (next_fails w); reflexivity.
Qed.

Lemma updatePictureDatabase_invalid_date (i n : string) (w : World) :
  updatePictureDatabase (Val i) (Val n) (Val InvalidDate) w
  = (Ok tt, emit (writeFailed RangeError) w).
Proof. reflexivity. Qed.

Lemma valid_parameters_true imageId imageName createdAt (w : World) :
  valid_parameters imageId imageName createdAt w = true ->
  exists i n d, imageId = Val i /\ imageName = Val n /\ createdAt = Val d
                /\ getTime_gt d (now w) = false.
Proof.
  unfold valid_parameters. intro H. apply negb_true_iff in H.
  destruct imageId as [| |i], imageName as [| |n], createdAt as [| |d];
    simpl in H; try discriminate.
  now exists i, n, d.
Qed.

(** C3, amended.  [updatePictureDatabase] always resolves with nothing.
    When one of [imageId], [imageName], [createdAt] is [null] or
    [undefined], or [createdAt] is later than the clock, it only logs the
    rejection: the world is otherwise untouched.  Otherwise it attempts
    one write.  When [createdAt] is a valid date and the service accepts
    the request, the collection gains exactly one document, with an
    identifier not yet in use, the given [imageId] and [imageName], the
    date, and the view URL of [imageId].  A write that fails (an invalid
    date, a rejected request) is logged and leaves the collection as it
    was.  The bucket is never touched. *)
Theorem C3_updatePictureDatabase_validates
    (imageId imageName : Nullable string) (createdAt : Nullable JsDate) (w : World) :
  let persist := updatePictureDatabase imageId imageName createdAt in
  result persist w = Ok tt
  /\ (valid_parameters imageId imageName createdAt w = false ->
      run persist w = emit rejected w)
  /\ (forall i n ms,
        imageId = Val i -> imageName = Val n -> createdAt = Val (ValidDate ms) ->
        ms <= now w -> next_fails w = false ->
        let id := fresh_id (map docId (docs w)) in
        docs (run persist w)
        = docs w ++ [mkDoc id {| dImageId := i;
                                 dImageName := n;
                                 dCreatedAt := Iso ms;
                                 dImageUrl := fileViewUrl (env w) i |}]
        /\ ~ In id (map docId (docs w)))
  /\ (valid_parameters imageId imageName createdAt w = true ->
      createdAt = Val InvalidDate \/ next_fails w = true ->
      docs (run persist w) = docs w
      /\ exists e before, trace (run persist w) = trace w ++ before ++ [writeFailed e])
  /\ files (run persist w) = files w.
Proof.
  cbv zeta. unfold result, run.
  destruct (valid_parameters imageId imageName createdAt w) eqn:Hv.
  - destruct (valid_parameters_true _ _ _ _ Hv) as (i & n & d & -> & -> & -> & Hd).
    destruct d as [ms|].
    + assert (Hle : ms <= now w) by (apply Z.ltb_ge in Hd; lia).
      rewrite (updatePictureDatabase_valid i n ms w Hle).
      destruct (next_fails w) eqn:Hf; cbn [fst snd];
        (split; [reflexivity|split; [discriminate|split; [|split; [|reflexivity]]]]).
      * intros i' n' ms' _ _ _ _ Habs. discriminate.
      * intros _ _. split; [reflexivity|].
        exists (AppwriteException (writeRequest w i n ms)),
          [Call (writeRequest w i n ms) false].
        cbn. now rewrite <- app_assoc.
      * intros i' n' ms' [= <-] [= <-] [= <-] _ _.
        split; [reflexivity | apply fresh_id_fresh].
      * intros _ [Habs|Habs]; discriminate.
    + rewrite updatePictureDatabase_invalid_date. cbn [fst snd].
      split; [reflexivity|split; [discriminate|split; [|split; [|reflexivity]]]].
      * intros i' n' ms' _ _ Habs. discriminate.
      * intros _ _. split; [reflexivity|]. now exists RangeError, [].
  - rewrite (updatePictureDatabase_invalid _ _ _ _ Hv). cbn [fst snd].
    split; [reflexivity|split; [reflexivity|split; [|split; [discriminate|reflexivity]]]].
    intros i n ms -> -> -> Hle Hf. exfalso.
    unfold valid_parameters in Hv. simpl in Hv.
    apply negb_false_iff, Z.ltb_lt in Hv. lia.
Qed.

(** ** [deletePicture] *)

Lemma calls_app (a b : list Event) : calls (a ++ b) = calls a ++ calls b.
Proof. apply flat_map_app. Qed.

Lemma truthy_Val (s : string) : s <> "" -> truthy (Val s) = Some s.
Proof.
  intro H. unfold truthy, falsy. now destruct (String.eqb_spec s "").
Qed.

Lemma truthy_falsy (s : Nullable string) : falsy s = true <-> truthy s = None.
Proof.
  destruct s as [| |v]; simpl; try tauto.
  destruct (v =? "")%string; split; congruence.
Qed.

Lemma truthy_Some (s : Nullable string) (v : string) :
  truthy s = Some v -> s = Val v /\ v <> "".
Proof.
  destruct s as [| |x]; simpl; try discriminate.
  destruct (String.eqb_spec x ""); [discriminate|]. now intros [= <-].
Qed.

Lemma deletePicture_absent (imageId documentId : Nullable string) (w : World) :
  falsy imageId || falsy documentId = true ->
  deletePicture imageId documentId w = (Ok tt, emit deleteRejected w).
Proof.
  intro H. unfold deletePicture, try_catch.
  apply orb_true_iff in H as [H|H]; apply truthy_falsy in H; rewrite H.
  - reflexivity.
  - now destruct (truthy imageId).
Qed.

Lemma deleteDocument_run (d : string) (w : World) :
  deleteDocument d w =
  if record_deletable d w
  then (Ok tt, emit (Call (DeleteDocument d) true)
                 (set_docs (without_doc d (docs w)) (pop_fault w)))
  else (Throw (AppwriteException (DeleteDocument d)),
        emit (Call (DeleteDocument d) false) (pop_fault w)).
Proof.
  unfold deleteDocument, request, record_deletable. cbv zeta.
  destruct (next_fails w); [reflexivity|].
  change (has_doc d (pop_fault w)) with (has_doc d w).
  now destruct (has_doc d w).
Qed.

Lemma deleteFile_run (i : string) (w : World) :
  deleteFile i w =
  if blob_deletable i w
  then (Ok tt, emit (Call (DeleteFile i) true)
                 (set_files (without_file i (files w)) (pop_fault w)))
  else (Throw (AppwriteException (DeleteFile i)),
        emit (Call (DeleteFile i) false) (pop_fault w)).
Proof.
  unfold deleteFile, request, blob_deletable. cbv zeta.
  destruct (next_fails w); [reflexivity|].
  change (has_file i (pop_fault w)) with (has_file i w).
  now destruct (has_file i w).
Qed.

Lemma deletePicture_run (i d : string) (w : World) :
  i <> "" -> d <> "" ->
  deletePicture (Val i) (Val d) w =
  if record_deletable d w
  then
    let w1 := emit (Call (DeleteDocument d) true)
                (set_docs (without_doc d (docs w)) (pop_fault w)) in
    if blob_deletable i (pop_fault w)
    then (Ok tt, emit (Call (DeleteFile i) true)
                   (set_files (without_file i (files w)) (pop_fault w1)))
    else (Ok tt, emit (deleteFailed (DeleteFile i))
                   (emit (Call (DeleteFile i) false) (pop_fault w1)))
  else (Ok tt, emit (deleteFailed (DeleteDocument d))
                 (emit (Call (DeleteDocument d) false) (pop_fault w))).
Proof.
  intros Hi Hd. unfold deletePicture, try_catch, bind.
  rewrite (truthy_Val i Hi), (truthy_Val d Hd), deleteDocument_run.
  destruct (record_deletable d w); [|reflexivity].
  rewrite deleteFile_run. cbv zeta.
  change (blob_deletable i (emit _ (set_docs _ ?x))) with (blob_deletable i x).
  destruct (blob_deletable i (pop_fault w)); reflexivity.
Qed.

(** C5. [deletePicture] never rejects.  With a falsy [imageId] or
    [documentId] it only logs and issues no request.  With both present it
    first asks for the deletion of the record and, only once that
    succeeded, for the deletion of the blob: when the record cannot be
    deleted nothing is deleted; when the record is deleted and the blob
    deletion fails, the record is gone and the blob stays in the bucket;
    every failure is logged. *)
Theorem C5_deletePicture_record_then_blob
    (imageId documentId : Nullable string) (w : World) :
  let remove := deletePicture imageId documentId in
  result remove w = Ok tt
  /\ (falsy imageId || falsy documentId = true ->
      run remove w = emit deleteRejected w)
  /\ (forall i d,
        imageId = Val i -> documentId = Val d -> i <> "" -> d <> "" ->
        (record_deletable d w = false ->
         docs (run remove w) = docs w
         /\ files (run remove w) = files w
         /\ calls (trace (run remove w))
            = calls (trace w) ++ [(DeleteDocument d, false)]
         /\ exists before,
              trace (run remove w)
              = trace w ++ before ++ [deleteFailed (DeleteDocument d)])
        /\ (record_deletable d w = true ->
            blob_deletable i (pop_fault w) = false ->
            docs (run remove w) = without_doc d (docs w)
            /\ files (run remove w) = files w
            /\ calls (trace (run remove w))
               = calls (trace w) ++ [(DeleteDocument d, true); (DeleteFile i, false)]
            /\ exists before,
                 trace (run remove w)
                 = trace w ++ before ++ [deleteFailed (DeleteFile i)])
        /\ (record_deletable d w = true ->
            blob_deletable i (pop_fault w) = true ->
            docs (run remove w) = without_doc d (docs w)
            /\ files (run remove w) = without_file i (files w)
            /\ calls (trace (run remove w))
               = calls (trace w) ++ [(DeleteDocument d, true); (DeleteFile i, true)])).
Proof.
  cbv zeta. unfold result, run.
  split; [|split].
  - destruct (deletePicture_no_throw imageId documentId w) as ([] & w' & ->).
    reflexivity.
  - intro H. now rewrite (deletePicture_absent _ _ _ H).
  - intros i d -> -> Hi Hd. rewrite (deletePicture_run i d w Hi Hd).
    destruct (record_deletable d w); cbv zeta;
      [destruct (blob_deletable i (pop_fault w))|];
      (split; [|split]); intros; try discriminate; cbn [fst snd];
      repeat split; try reflexivity;
      cbn [trace emit pop_fault set_faults set_docs set_files];
      rewrite ?calls_app, <- ?app_assoc; try reflexivity.
    + now exists [Call (DeleteDocument d) true; Call (DeleteFile i) false].
    + now exists [Call (DeleteDocument d) false].
Qed.

(** ** Presence checks of the two operations *)

(** C10. The empty string passes the [== null] tests of
    [updatePictureDatabase] and fails the truthiness tests of
    [deletePicture].  So a call of [updatePictureDatabase] with an empty
    [imageId] or [imageName] (the other one a string too) and a date that
    is not in the future is not rejected: it sends the write request, and
    the record with the empty field is stored when the service accepts it.
    A call of [deletePicture] with an empty [imageId] or [documentId] sends
    no request and deletes nothing. *)
Theorem C10_presence_checks_differ (w : World) :
  (@loose_null string (Val "") = false /\ falsy (Val "") = true)
  /\ (forall i n ms,
        i = "" \/ n = "" -> ms <= now w ->
        let persist := updatePictureDatabase (Val i) (Val n) (Val (ValidDate ms)) in
        valid_parameters (Val i) (Val n) (Val (ValidDate ms)) w = true
        /\ calls (trace (run persist w))
           = calls (trace w) ++ [(writeRequest w i n ms, negb (next_fails w))]
        /\ (next_fails w = false ->
            docs (run persist w) = docs w ++ [newDocument w i n ms]))
  /\ (forall imageId documentId,
        imageId = Val "" \/ documentId = Val "" ->
        let remove := deletePicture imageId documentId in
        run remove w = emit deleteRejected w
        /\ docs (run remove w) = docs w
        /\ files (run remove w) = files w
        /\ calls (trace (run remove w)) = calls (trace w)).
Proof.
  split; [split; reflexivity|split].
  - intros i n ms _ Hle. cbv zeta. unfold run.
    rewrite (updatePictureDatabase_valid i n ms w Hle).
    split; [|split].
    + unfold valid_parameters. simpl. apply negb_true_iff, Z.ltb_ge. lia.
    + destruct (next_fails w); cbn [snd trace emit pop_fault set_faults set_docs];
        rewrite !calls_app, <- !app_assoc; reflexivity.
    + intros ->. reflexivity.
  - intros imageId documentId H. cbv zeta. unfold run.
    rewrite deletePicture_absent.
    + cbn [snd docs files trace emit]. rewrite calls_app, app_nil_r. now repeat split.
    + destruct H as [-> | ->]; [reflexivity|apply orb_true_r].
Qed.

(** ** [handleUpload] and the upload effect *)

Lemma updatePictureDatabase_keeps imageId imageName createdAt (w : World) :
  let w' := run (updatePictureDatabase imageId imageName createdAt) w in
  home w' = home w /\ upload w' = upload w /\ files w' = files w /\ now w' = now w
  /\ env w' = env w.
Proof.
  cbv zeta. unfold run.
  destruct (valid_parameters imageId imageName createdAt w) eqn:Hv.
  - destruct (valid_parameters_true _ _ _ _ Hv) as (i & n & d & -> & -> & -> & Hd).
    destruct d as [ms|].
    + rewrite updatePictureDatabase_valid by (apply Z.ltb_ge in Hd; lia).
      destruct (next_fails w); now repeat split.
    + now repeat split.
  - rewrite (updatePictureDatabase_invalid _ _ _ _ Hv). now repeat split.
Qed.

Lemma handleUpload_run (f : File) (w w1 : World) (r : Nullable string) :
  image (upload w) = Some f ->
  uploadPicture f w = (Ok r, w1) ->
  handleUpload w =
  match truthy r with
  | None => (Ok tt, emit uploadFailed w1)
  | Some id =>
      let w2 := run (updatePictureDatabase (Val id) (Val (name f))
                       (Val (ValidDate (now w1)))) w1 in
      (Ok tt, emit uploaded (run (setTotalImageNumber (fun prev => prev + 1)) w2))
  end.
Proof.
  intros Hi Hu. unfold handleUpload, bind, get_upload. rewrite Hi.
  unfold try_catch. rewrite Hu.
  destruct (truthy r) as [id|]; [|reflexivity].
  unfold new_Date, run.
  destruct (updatePictureDatabase_no_throw (Val id) (Val (name f))
              (Val (ValidDate (now w1))) w1) as ([] & w2 & ->).
  reflexivity.
Qed.

Lemma handleUpload_no_throw : no_throw handleUpload.
Proof.
  intro w. unfold handleUpload, bind, get_upload.
  destruct (image (upload w)) as [f|].
  - apply no_throw_try_catch. intro e. apply no_throw_tell.
  - apply no_throw_tell.
Qed.

Lemma uploadEffect_run (w : World) :
  toUpload (upload w) = true ->
  uploadEffect w
  = (Ok tt, run (setImage None) (run (setToUpload false) (run handleUpload w))).
Proof.
  intro Ht. unfold uploadEffect, bind, get_upload, finally, run. rewrite Ht.
  destruct (handleUpload_no_throw w) as ([] & w1 & ->). reflexivity.
Qed.

Lemma uploadPicture_Val (f : File) (w w1 : World) (id : string) :
  uploadPicture f w = (Ok (Val id), w1) ->
  id = fresh_id (map sfId (files w))
  /\ files w1 = files w ++ [newBlob w f]
  /\ docs w1 = docs w /\ home w1 = home w /\ now w1 = now w.
Proof.
  rewrite uploadPicture_run. cbv zeta.
  destruct (next_fails w); [discriminate|].
  destruct (name_taken (name f) w); [discriminate|].
  destruct (next_fails _); [discriminate|].
  intros [= <- <-]. now repeat split.
Qed.

Lemma uploadPicture_taken (f : File) (w : World) :
  name_taken (name f) w = true ->
  exists msg args,
    uploadPicture f w
    = (Ok Null, emit (ConsoleError msg args)
                  (emit (Call (checkRequest f) (negb (next_fails w))) (pop_fault w))).
Proof.
  intro Ht. rewrite uploadPicture_run. cbv zeta. rewrite Ht.
  destruct (next_fails w); do 2 eexists; reflexivity.
Qed.

(** C2. When a blob of the file's name is in the bucket, [uploadPicture]
    returns [null] and sends nothing but the existence check: bucket and
    collection stay as they are, and [handleUpload] on that file leaves
    them and the displayed total unchanged as well.  When the name is
    unused and the service accepts the two requests, the bucket gains one
    blob under an identifier not yet in use, and that identifier is
    returned; when one of the two requests fails the result is [null] and
    nothing is stored. *)
Theorem C2_uploadPicture_duplicate_or_store (f : File) (w : World) :
  let up := uploadPicture f in
  (name_taken (name f) w = true ->
   result up w = Ok Null
   /\ files (run up w) = files w
   /\ docs (run up w) = docs w
   /\ calls (trace (run up w))
      = calls (trace w) ++ [(checkRequest f, negb (next_fails w))]
   /\ (image (upload w) = Some f ->
       let w' := run handleUpload w in
       files w' = files w
       /\ docs w' = docs w
       /\ totalImageNumber (home w') = totalImageNumber (home w)
       /\ calls (trace w')
          = calls (trace w) ++ [(checkRequest f, negb (next_fails w))]))
  /\ (name_taken (name f) w = false ->
      let id := fresh_id (map sfId (files w)) in
      ~ In id (map sfId (files w))
      /\ id <> ""
      /\ (accepts 2 w = true ->
          result up w = Ok (Val id)
          /\ files (run up w) = files w ++ [mkStored id (name f) (content f)]
          /\ docs (run up w) = docs w)
      /\ (accepts 2 w = false ->
          result up w = Ok Null
          /\ files (run up w) = files w
          /\ docs (run up w) = docs w)).
Proof.
  cbv zeta. split.
  - intro Ht. destruct (uploadPicture_taken f w Ht) as (msg & args & He).
    unfold result, run. rewrite He. cbn [fst snd].
    repeat split.
    + cbn [trace emit pop_fault set_faults]. rewrite !calls_app, <- app_assoc.
      reflexivity.
    + rewrite (handleUpload_run f w _ Null H He). reflexivity.
    + rewrite (handleUpload_run f w _ Null H He). reflexivity.
    + rewrite (handleUpload_run f w _ Null H He). reflexivity.
    + rewrite (handleUpload_run f w _ Null H He).
      cbn [truthy snd trace emit pop_fault set_faults].
      rewrite !calls_app, <- !app_assoc. reflexivity.
  - intro Hu. split; [apply fresh_id_fresh|]. split; [discriminate|].
    unfold result, run. rewrite uploadPicture_run. cbv zeta. rewrite Hu.
    cbn [accepts].
    change (next_fails (emit _ (pop_fault w))) with (next_fails (pop_fault w)).
    destruct (next_fails w); [|destruct (next_fails (pop_fault w))];
      cbn [negb andb]; split; intro H; try discriminate; now repeat split.
Qed.

Lemma accepts_S (n : nat) (w : World) :
  accepts (S n) w = true <-> next_fails w = false /\ accepts n (pop_fault w) = true.
Proof.
  cbn [accepts]. rewrite andb_true_iff, negb_true_iff. tauto.
Qed.

Lemma uploadPicture_succeeds (f : File) (w : World) :
  upload_succeeds f w = true ->
  uploadPicture f w
  = (Ok (Val (sfId (newBlob w f))),
     emit (Call (storeRequest f) true)
       (set_files (files w ++ [newBlob w f])
          (pop_fault (emit (Call (checkRequest f) true) (pop_fault w))))).
Proof.
  unfold upload_succeeds. rewrite andb_true_iff, negb_true_iff.
  intros [Hn Ha]. apply accepts_S in Ha as [H1 Ha]. apply accepts_S in Ha as [H2 _].
  rewrite uploadPicture_run. cbv zeta. rewrite H1, Hn.
  change (next_fails (emit _ (pop_fault w))) with (next_fails (pop_fault w)).
  now rewrite H2.
Qed.

Lemma uploadPicture_null (f : File) (w : World) :
  upload_succeeds f w = false ->
  exists w1, uploadPicture f w = (Ok Null, w1)
             /\ home w1 = home w /\ docs w1 = docs w /\ files w1 = files w.
Proof.
  unfold upload_succeeds. rewrite uploadPicture_run. cbv zeta. cbn [accepts].
  change (next_fails (emit _ (pop_fault w))) with (next_fails (pop_fault w)).
  destruct (next_fails w); [intros _; eexists; now repeat split|].
  destruct (name_taken (name f) w); [intros _; eexists; now repeat split|].
  destruct (next_fails (pop_fault w)); [intros _; eexists; now repeat split|].
  discriminate.
Qed.

Lemma handleUpload_succeeds (f : File) (w : World) :
  image (upload w) = Some f ->
  upload_succeeds f w = true ->
  let w1 := snd (uploadPicture f w) in
  let id := sfId (newBlob w f) in
  handleUpload w
  = (Ok tt,
     emit uploaded
       (run (setTotalImageNumber (fun prev => prev + 1))
          (run (updatePictureDatabase (Val id) (Val (name f)) (Val (ValidDate (now w))))
             w1))).
Proof.
  intros Hi Hs. cbv zeta.
  pose proof (uploadPicture_succeeds f w Hs) as Hu.
  rewrite (handleUpload_run f w _ _ Hi Hu), Hu.
  rewrite truthy_Val by apply fresh_id_nonempty. reflexivity.
Qed.

Lemma uploadEffect_success (f : File) (w : World) :
  toUpload (upload w) = true ->
  image (upload w) = Some f ->
  name_taken (name f) w = false ->
  accepts 3 w = true ->
  let doc := newRecord w f in
  let w1 := emit (Call (storeRequest f) true)
              (set_files (files w ++ [newBlob w f])
                 (pop_fault (emit (Call (checkRequest f) true) (pop_fault w)))) in
  let w2 := emit written
              (emit (Call (CreateDocument (docId doc) (docData doc)) true)
                 (set_docs (docs w ++ [doc]) (pop_fault w1))) in
  run uploadEffect w
  = run (setImage None)
      (run (setToUpload false)
         (emit uploaded (run (setTotalImageNumber (fun prev => prev + 1)) w2))).
Proof.
  intros Ht Hi Hn Ha. cbv zeta.
  assert (Hs : upload_succeeds f w = true).
  { unfold upload_succeeds. rewrite Hn. cbn [negb andb].
    apply accepts_S in Ha as [H1 Ha]. apply accepts_S in Ha as [H2 _].
    apply accepts_S. split; [assumption|]. now apply accepts_S. }
  apply accepts_S in Ha as [H1 Ha]. apply accepts_S in Ha as [H2 Ha].
  apply accepts_S in Ha as [H3 _].
  unfold run at 1. rewrite (uploadEffect_run w Ht). cbn [snd].
  do 2 f_equal. unfold run at 1.
  rewrite (handleUpload_succeeds f w Hi Hs). cbv zeta. cbn [snd].
  do 2 f_equal. unfold run at 1.
  rewrite (uploadPicture_succeeds f w Hs). cbn [snd].
  rewrite updatePictureDatabase_valid by (cbn; lia).
  change (next_fails (emit _ (set_files _ (pop_fault (emit _ (pop_fault w))))))
    with (next_fails (pop_fault (pop_fault w))).
  rewrite H3. reflexivity.
Qed.

Lemma uploadEffect_unarmed (w : World) :
  toUpload (upload w) = false -> uploadEffect w = (Ok tt, w).
Proof.
  intro Ht. unfold uploadEffect, bind, get_upload. now rewrite Ht.
Qed.

Lemma handleUpload_no_image (w : World) :
  image (upload w) = None ->
  handleUpload w
  = (Ok tt, emit (ConsoleError "No image selected for upload." []) w).
Proof.
  intro Hi. unfold handleUpload, bind, get_upload. now rewrite Hi.
Qed.

Lemma uploadEffect_world (w : World) :
  toUpload (upload w) = true ->
  run uploadEffect w = run (setImage None) (run (setToUpload false) (run handleUpload w)).
Proof.
  intro Ht. unfold run at 1. now rewrite (uploadEffect_run w Ht).
Qed.

(** The trace of the upload effect on a stored file, on every path: the
    requests come first, the increment follows them when [uploadPicture]
    returned an identifier, and the two clearings come last. *)
Lemma uploadEffect_trace (f : File) (w : World) :
  toUpload (upload w) = true ->
  image (upload w) = Some f ->
  exists before,
    trace (run uploadEffect w)
    = trace w ++ before
        ++ (if upload_succeeds f w
            then [SetTotalImageNumber (totalImageNumber (home w) + 1); uploaded]
            else [uploadFailed])
        ++ [SetToUpload false; SetImage None]
    /\ calls before
       = uploadRequests f w
           ++ (if upload_succeeds f w then [persistRequest f w] else [])
    /\ existsb sets_total before = false.
Proof.
  intros Ht Hi. rewrite (uploadEffect_world w Ht).
  destruct (upload_succeeds f w) eqn:Hs.
  - unfold run at 3. rewrite (handleUpload_succeeds f w Hi Hs). cbv zeta.
    rewrite (uploadPicture_succeeds f w Hs). cbn [snd].
    unfold run at 4. rewrite updatePictureDatabase_valid by (cbn; lia).
    change (next_fails (emit _ (set_files _ (pop_fault (emit _ (pop_fault w))))))
      with (next_fails (pop_fault (pop_fault w))).
    unfold upload_succeeds in Hs. apply andb_true_iff in Hs as [Hn Ha].
    apply negb_true_iff in Hn.
    apply accepts_S in Ha as [H1 Ha]. apply accepts_S in Ha as [H2 _].
    unfold uploadRequests, persistRequest. rewrite H1, Hn, H2.
    destruct (next_fails (pop_fault (pop_fault w))).
    + exists [Call (checkRequest f) true; Call (storeRequest f) true;
              Call (CreateDocument (docId (newRecord w f)) (docData (newRecord w f)))
                false;
              writeFailed (AppwriteException
                             (CreateDocument (docId (newRecord w f))
                                (docData (newRecord w f))))].
      split; [|split; reflexivity].
      unfold run. cbn. rewrite <- !app_assoc. reflexivity.
    + exists [Call (checkRequest f) true; Call (storeRequest f) true;
              Call (CreateDocument (docId (newRecord w f)) (docData (newRecord w f)))
                true;
              written].
      split; [|split; reflexivity].
      unfold run. cbn. rewrite <- !app_assoc. reflexivity.
  - destruct (uploadPicture_no_throw f w) as (r & w1 & Hu).
    pose proof Hu as Hu'. rewrite uploadPicture_run in Hu'. cbv zeta in Hu'.
    unfold upload_succeeds in Hs. cbn [accepts] in Hs.
    unfold uploadRequests.
    change (next_fails (emit _ (pop_fault w))) with (next_fails (pop_fault w)) in Hu'.
    unfold run at 3. rewrite (handleUpload_run f w w1 r Hi Hu).
    destruct (next_fails w).
    + injection Hu' as <- <-.
      exists [Call (checkRequest f) false;
              ConsoleError "Error uploading picture:"
                [ArgExn (AppwriteException (checkRequest f))]].
      split; [|split; reflexivity].
      unfold run. cbn. rewrite <- !app_assoc. reflexivity.
    + destruct (name_taken (name f) w).
      * injection Hu' as <- <-.
        exists [Call (checkRequest f) true;
                ConsoleError "File with the same name already exists in storage." []].
        split; [|split; reflexivity].
        unfold run. cbn. rewrite <- !app_assoc. reflexivity.
      * destruct (next_fails (pop_fault w)); [|discriminate].
        injection Hu' as <- <-.
        exists [Call (checkRequest f) true; Call (storeRequest f) false;
                ConsoleError "Error uploading picture:"
                  [ArgExn (AppwriteException (storeRequest f))]].
        split; [|split; reflexivity].
        unfold run. cbn. rewrite <- !app_assoc. reflexivity.
Qed.

(** C6, amended.  With the trigger armed, the upload effect resolves and
    leaves the trigger cleared and the file reference [null], whatever
    happened in between.  With no file stored it sends no request and
    leaves the total as it is.  With a file stored it starts with the
    requests of [uploadPicture]: the existence check, then the blob unless
    the check fails or finds the name.  Only when [uploadPicture] returned
    an identifier does it send the record and, after every request,
    increment the total by 1; otherwise it sends nothing more and never
    touches the total.  For a file of unused name, when the service
    accepts the three requests, the effect sends the existence check, the
    blob and the record, then increments the total, in that order: the
    bucket gains the blob, the collection gains exactly one record
    carrying the file's name, the total grows by exactly 1, and an
    unfiltered [fetchPictures] afterwards returns the former records
    followed by the new one. *)
Theorem C6_uploadEffect_pipeline (w : World) :
  toUpload (upload w) = true ->
  let w' := run uploadEffect w in
  (result uploadEffect w = Ok tt
   /\ toUpload (upload w') = false
   /\ image (upload w') = None)
  /\ (image (upload w) = None ->
      calls (trace w') = calls (trace w)
      /\ totalImageNumber (home w') = totalImageNumber (home w)
      /\ docs w' = docs w
      /\ files w' = files w)
  /\ (forall f,
        image (upload w) = Some f ->
        result (uploadPicture f) w
        = Ok (if upload_succeeds f w then Val (sfId (newBlob w f)) else Null)
        /\ calls (trace w')
        = calls (trace w) ++ uploadRequests f w
            ++ (if upload_succeeds f w then [persistRequest f w] else [])
        /\ totalImageNumber (home w')
           = totalImageNumber (home w) + (if upload_succeeds f w then 1 else 0)
        /\ exists before,
             trace w'
             = trace w ++ before
                 ++ (if upload_succeeds f w
                     then [SetTotalImageNumber (totalImageNumber (home w) + 1); uploaded]
                     else [uploadFailed])
                 ++ [SetToUpload false; SetImage None]
             /\ calls before
                = uploadRequests f w
                    ++ (if upload_succeeds f w then [persistRequest f w] else [])
             /\ existsb sets_total before = false)
  /\ (forall f,
        image (upload w) = Some f ->
        name_taken (name f) w = false ->
        accepts 3 w = true ->
        let doc := newRecord w f in
        trace w'
        = trace w
          ++ [Call (checkRequest f) true;
              Call (storeRequest f) true;
              Call (CreateDocument (docId doc) (docData doc)) true;
              written;
              SetTotalImageNumber (totalImageNumber (home w) + 1);
              uploaded;
              SetToUpload false;
              SetImage None]
        /\ files w' = files w ++ [newBlob w f]
        /\ docs w' = docs w ++ [doc]
        /\ ~ In (docId doc) (map docId (docs w))
        /\ imageName (toImage doc) = name f
        /\ totalImageNumber (home w') = totalImageNumber (home w) + 1
        /\ (next_fails w' = false ->
            result (fetchPictures "") w'
            = Ok (Val (map toImage (docs w) ++ [toImage doc])))).
Proof.
  intro Ht. cbv zeta.
  split; [|split; [|split]].
  - unfold result, run. rewrite (uploadEffect_run w Ht). now repeat split.
  - intro Hi. rewrite (uploadEffect_world w Ht).
    unfold run at 3 6 9 12. rewrite (handleUpload_no_image w Hi).
    unfold run.
    cbn [snd setImage setToUpload emit set_upload home docs files trace].
    rewrite !calls_app. cbn [calls flat_map callOf app]. rewrite !app_nil_r.
    now repeat split.
  - intros f Hi.
    destruct (uploadEffect_trace f w Ht Hi) as (before & Htr & Hc & Hb).
    split; [|split; [|split]].
    + unfold result. destruct (upload_succeeds f w) eqn:Hs.
      * now rewrite (uploadPicture_succeeds f w Hs).
      * destruct (uploadPicture_null f w Hs) as (w1 & Hu & _). now rewrite Hu.
    + rewrite Htr, !calls_app, Hc.
      destruct (upload_succeeds f w); cbn [calls flat_map callOf app uploaded uploadFailed];
        now rewrite ?app_nil_r.
    + unfold run at 1. rewrite (uploadEffect_run w Ht). cbn [snd].
      destruct (upload_succeeds f w) eqn:Hs.
      * unfold run at 3. rewrite (handleUpload_succeeds f w Hi Hs). cbv zeta.
        cbn [snd]. unfold run at 1 2 3.
        cbn [snd setImage setToUpload emit set_upload home set_home
               setTotalImageNumber upd_totalImageNumber totalImageNumber].
        destruct (updatePictureDatabase_keeps (Val (sfId (newBlob w f)))
                    (Val (name f)) (Val (ValidDate (now w))) (snd (uploadPicture f w)))
          as (Hk & _).
        rewrite Hk.
        now rewrite (uploadPicture_succeeds f w Hs).
      * destruct (uploadPicture_null f w Hs) as (w1 & Hu & Hh & _).
        unfold run at 3. rewrite (handleUpload_run f w _ _ Hi Hu).
        cbn. rewrite Hh. lia.
    + exists before. now repeat split.
  - intros f Hi Hn Ha.
    rewrite (uploadEffect_success f w Ht Hi Hn Ha). cbv zeta.
    split; [|split; [|split; [|split; [|split; [|split]]]]].
    + cbn. rewrite <- !app_assoc. reflexivity.
    + reflexivity.
    + reflexivity.
    + apply fresh_id_fresh.
    + reflexivity.
    + reflexivity.
    + intro Hf. unfold result.
      match goal with |- fst (fetchPictures "" ?x) = _ =>
        rewrite (fetchPictures_run "" x); cbv zeta; rewrite Hf end.
      cbn [fst]. rewrite (filter_all (startsWith "")) by apply startsWith_empty.
      cbn. now rewrite map_app.
Qed.

(** C9. [updatePictureDatabase] resolves whatever its arguments and
    whatever the service answers.  Hence, once [uploadPicture] has returned
    an identifier, [handleUpload] continues with the increment as soon as
    [updatePictureDatabase] has resolved: the total grows by 1.  When the
    write request is the one that fails, the blob is stored, the total has
    grown by 1 and the collection holds no new record; such an execution
    exists. *)
Theorem C9_total_grows_without_record :
  (forall imageId imageName createdAt,
      no_throw (updatePictureDatabase imageId imageName createdAt))
  /\ (forall w f id w1,
        image (upload w) = Some f ->
        uploadPicture f w = (Ok (Val id), w1) ->
        let persist :=
          updatePictureDatabase (Val id) (Val (name f)) (Val (ValidDate (now w1))) in
        run handleUpload w
        = emit uploaded (run (setTotalImageNumber (fun prev => prev + 1)) (run persist w1))
        /\ totalImageNumber (home (run handleUpload w))
           = totalImageNumber (home w) + 1)
  /\ (forall w f,
        image (upload w) = Some f ->
        upload_succeeds f w = true ->
        next_fails (pop_fault (pop_fault w)) = true ->
        totalImageNumber (home (run handleUpload w)) = totalImageNumber (home w) + 1
        /\ docs (run handleUpload w) = docs w
        /\ files (run handleUpload w) = files w ++ [newBlob w f])
  /\ (exists w,
        toUpload (upload w) = true
        /\ totalImageNumber (home (run uploadEffect w)) = totalImageNumber (home w) + 1
        /\ docs (run uploadEffect w) = docs w
        /\ files (run uploadEffect w) = files w ++ [newBlob w catFile]).
Proof.
  split; [|split; [|split]].
  - intros. apply updatePictureDatabase_no_throw.
  - intros w f id w1 Hi Hu. cbv zeta.
    destruct (uploadPicture_Val f w w1 id Hu) as (Hid & _ & _ & Hh & _).
    assert (Hrun : run handleUpload w
                   = emit uploaded
                       (run (setTotalImageNumber (fun prev => prev + 1))
                          (run (updatePictureDatabase (Val id) (Val (name f))
                                  (Val (ValidDate (now w1)))) w1))).
    { unfold run at 1. rewrite (handleUpload_run f w w1 (Val id) Hi Hu).
      rewrite truthy_Val by (rewrite Hid; apply fresh_id_nonempty). reflexivity. }
    split; [exact Hrun|]. rewrite Hrun.
    unfold run at 1.
    cbn [snd emit setTotalImageNumber home set_home upd_totalImageNumber totalImageNumber].
    destruct (updatePictureDatabase_keeps (Val id) (Val (name f))
                (Val (ValidDate (now w1))) w1) as (-> & _).
    now rewrite Hh.
  - intros w f Hi Hs Hf. unfold run.
    rewrite (handleUpload_succeeds f w Hi Hs). cbv zeta.
    rewrite (uploadPicture_succeeds f w Hs). cbn [snd]. unfold run.
    rewrite updatePictureDatabase_valid by (cbn; lia).
    change (next_fails (emit _ (set_files _ (pop_fault (emit _ (pop_fault w))))))
      with (next_fails (pop_fault (pop_fault w))).
    rewrite Hf. now repeat split.
  - exists (failing [false; false; true] (selected catFile emptyWorld)).
    vm_compute. now repeat split.
Qed.

(** ** The fetch transition of [Home] *)

Lemma fetchEffectWith_run (fetch : string -> M (Nullable (list Image))) (w : World) :
  fetchEffectWith fetch w =
  let w1 := run (setLoading true) w in
  match fetch (debouncedSearchTerm (home w)) w1 with
  | (Ok response, w2) =>
      let w3 := if empty_response response
                then emit (ConsoleError "No images found" []) w2 else w2 in
      (Ok tt, run (setLoading false) (run (setImageList (shown response)) w3))
  | (Throw e, w2) =>
      (Ok tt, run (setLoading false)
                (emit (ConsoleError "Error fetching images:" [ArgExn e]) w2))
  end.
Proof.
  unfold fetchEffectWith, getAllImagesWith, bind, try_catch, get_home, run.
  cbn [setLoading snd emit set_home home upd_loading debouncedSearchTerm].
  destruct (fetch _ _) as [[r|e] w2]; [|reflexivity].
  destruct r as [| |[|x l]]; reflexivity.
Qed.

(** C4. A fetch transition first sets [loading], then fetches with the
    debounced term.  Whatever the fetch does, the transition resolves with
    [loading] false: when the fetch returns, the list becomes the fetched
    sequence, or the empty list for an empty or [undefined] response; when
    the fetch throws, the error is logged and [loading] is reset all the
    same.  With [fetchPictures], which never throws, the list becomes the
    records matching the debounced term, or the empty list when the
    request fails, and the setters are called in the order
    [setLoading(true)], [setImageList], [setLoading(false)]. *)
Theorem C4_fetch_transition_resets_loading
    (fetch : string -> M (Nullable (list Image))) (w : World) :
  let q := debouncedSearchTerm (home w) in
  let w1 := run (setLoading true) w in
  (loading (home w1) = true
   /\ result (fetchEffectWith fetch) w = Ok tt
   /\ loading (home (run (fetchEffectWith fetch) w)) = false
   /\ match fetch q w1 with
      | (Ok response, _) =>
          imageList (home (run (fetchEffectWith fetch) w)) = shown response
      | (Throw _, w2) =>
          imageList (home (run (fetchEffectWith fetch) w)) = imageList (home w2)
      end)
  /\ (let results := if next_fails w then []
                     else map toImage (filter (startsWith q) (docs w)) in
      result fetchEffect w = Ok tt
      /\ loading (home (run fetchEffect w)) = false
      /\ imageList (home (run fetchEffect w)) = results
      /\ exists between,
           trace (run fetchEffect w)
           = trace w ++ [SetLoading true] ++ between
               ++ [SetImageList results; SetLoading false]
           /\ existsb sets_fetch_state between = false).
Proof.
  cbv zeta. split.
  - pose proof (fetchEffectWith_run fetch w) as Hrun. cbv zeta in Hrun.
    unfold result, run in *. revert Hrun.
    destruct (fetch _ _) as [[r|e] w2]; intro Hrun; rewrite !Hrun;
      now repeat split.
  - unfold fetchEffect, result, run at 1 2 3. rewrite fetchEffectWith_run. cbv zeta.
    rewrite fetchPictures_run. cbv zeta.
    change (next_fails (run (setLoading true) w)) with (next_fails w).
    change (docs (run (setLoading true) w)) with (docs w).
    set (q := debouncedSearchTerm (home w)).
    destruct (next_fails w).
    + split; [reflexivity|split; [reflexivity|split; [reflexivity|]]].
      exists [ConsoleLog "Fetching pictures with query:" [ArgStr q];
              Call (ListDocuments (queryFor q)) false;
              ConsoleError "Error fetching all pictures:"
                [ArgExn (AppwriteException (ListDocuments (queryFor q)))];
              ConsoleError "No images found" []].
      split; [|reflexivity].
      cbn. rewrite <- !app_assoc. reflexivity.
    + set (found := map toImage _).
      assert (Hs : shown (Val found) = found) by now destruct found.
      rewrite Hs.
      split; [reflexivity|split; [reflexivity|split; [reflexivity|]]].
      destruct found as [|x l].
      * exists [ConsoleLog "Fetching pictures with query:" [ArgStr q];
                Call (ListDocuments (queryFor q)) true;
                ConsoleError "No images found" []].
        split; [|reflexivity].
        cbn. rewrite <- !app_assoc. reflexivity.
      * exists [ConsoleLog "Fetching pictures with query:" [ArgStr q];
                Call (ListDocuments (queryFor q)) true].
        split; [|reflexivity].
        cbn. rewrite <- !app_assoc. reflexivity.
Qed.

(** ** The gallery *)

(** C8. The grid is a function of the result list alone.  For a non-empty
    list it is one card per record, in order, each keyed by the record's
    [imageId] and showing that record; for the empty list it is the single
    placeholder image.  Once loading is over, the gallery shows the
    grid. *)
Theorem C8_gallery_is_pure_rendering (results : list Image) :
  (results <> [] ->
   renderGrid results
   = map (fun image =>
            ImageCard (imageId image)
              (mkCard (documentId image) (imageId image) (imageName image)
                 (imageUrl image) (createdAt image))) results
   /\ length (renderGrid results) = length results
   /\ forallb is_card (renderGrid results) = true
   /\ map elementKey (renderGrid results) = map (fun image => Some (imageId image)) results)
  /\ renderGrid [] = [Img "./no-image.png" "No images found"]
  /\ (forall h, loading h = false -> imageList h = results ->
        renderGallery h = renderGrid results).
Proof.
  split; [|split].
  - intro Hne. destruct results as [|x l]; [contradiction|].
    unfold renderGrid. cbn [length Nat.ltb Nat.leb].
    split; [reflexivity|]. split; [now rewrite length_map|].
    split.
    + rewrite forallb_forall. intros e He.
      apply in_map_iff in He as (i & <- & _). reflexivity.
    + rewrite map_map. reflexivity.
  - reflexivity.
  - intros h Hl <-. unfold renderGallery. now rewrite Hl.
Qed.

(** ** The debounce of the search term *)

Lemma fetches_app (a b : list Event) : fetches (a ++ b) = fetches a ++ fetches b.
Proof. apply flat_map_app. Qed.

(** Brings the list requests of an explicit trace to the front. *)
Ltac fetches_norm :=
  unfold run;
  cbn [snd fst trace home emit set_home set_docs set_files set_faults set_now set_upload
         pop_fault setLoading setImageList setTotalImageNumber setSearchImage
         setDebouncedSearchTerm setToUpload setImage setTimeout clearTimeout
         keep_handler empty_response shown length Nat.eqb];
  rewrite ?fetches_app;
  cbn [fetches flat_map fetchOf app];
  rewrite <- ?app_assoc, ?app_nil_r.

Lemma debounceCleanup_run (w : World) :
  debounceCleanup w = (Ok tt, run debounceCleanup w).
Proof.
  unfold run, debounceCleanup, bind, get_home.
  now destruct (handler (timers (home w))).
Qed.

Lemma debounceEffect_run (w : World) :
  debounceEffect w = (Ok tt, run debounceEffect w).
Proof. reflexivity. Qed.

Lemma onChange_changed (v : string) (w : World) :
  v <> searchImage (home w) ->
  onChange v w
  = (Ok tt, run debounceEffect (run debounceCleanup (run (setSearchImage v) w))).
Proof.
  intro Hne. apply String.eqb_neq in Hne.
  unfold onChange, homeEffects, bind at 1 2 3, get_home.
  unfold setSearchImage at 1. cbv beta iota zeta.
  cbn [home set_home emit upd_searchImage searchImage debouncedSearchTerm
         totalImageNumber refreshFetch].
  rewrite Hne, String.eqb_refl, Z.eqb_refl, Bool.eqb_reflx. cbn [andb].
  unfold bind. change (emit (SetSearchImage v) (set_home (upd_searchImage v (home w)) w))
    with (run (setSearchImage v) w).
  rewrite debounceCleanup_run, debounceEffect_run. reflexivity.
Qed.

Lemma onChange_same (w : World) :
  onChange (searchImage (home w)) w
  = (Ok tt, run (setSearchImage (searchImage (home w))) w).
Proof.
  unfold onChange, homeEffects, bind, get_home.
  unfold setSearchImage at 1. cbv beta iota zeta.
  cbn [home set_home emit upd_searchImage searchImage debouncedSearchTerm
         totalImageNumber refreshFetch].
  now rewrite !String.eqb_refl, Z.eqb_refl, Bool.eqb_reflx.
Qed.

Lemma tidy_cleared (w : World) :
  tidy w = true ->
  pending (timers (home (run debounceCleanup w))) = [].
Proof.
  unfold tidy, run, debounceCleanup, bind, get_home.
  destruct (handler (timers (home w))) as [k|]; intro Ht.
  - cbn [snd clearTimeout emit set_home home upd_timers timers pending].
    induction (pending (timers (home w))) as [|tm l IH]; [reflexivity|].
    cbn [forallb] in Ht. apply andb_true_iff in Ht as [Hk Hl].
    cbn [filter]. rewrite Hk. cbn [negb]. now apply IH.
  - cbn [snd ret]. destruct (pending (timers (home w))); [reflexivity|discriminate].
Qed.

Lemma debounceCleanup_keeps (w : World) :
  let w' := run debounceCleanup w in
  now w' = now w
  /\ issued (timers (home w')) = issued (timers (home w))
  /\ searchImage (home w') = searchImage (home w)
  /\ debouncedSearchTerm (home w') = debouncedSearchTerm (home w)
  /\ fetches (trace w') = fetches (trace w).
Proof.
  cbv zeta. unfold run, debounceCleanup, bind, get_home.
  destruct (handler (timers (home w))); [|now repeat split].
  do 4 (split; [reflexivity|]). now fetches_norm.
Qed.

(** What a keystroke that changes the text leaves, on a tidy page. *)
Lemma onChange_tidy (v : string) (w : World) :
  tidy w = true ->
  v <> searchImage (home w) ->
  exists w',
    onChange v w = (Ok tt, w')
    /\ searchImage (home w') = v
    /\ pending (timers (home w'))
       = [mkTimeout (issued (timers (home w)) + 1) (now w + 1000) v]
    /\ handler (timers (home w')) = Some (issued (timers (home w)) + 1)
    /\ now w' = now w
    /\ debouncedSearchTerm (home w') = debouncedSearchTerm (home w)
    /\ fetches (trace w') = fetches (trace w).
Proof.
  intros Ht Hne. rewrite (onChange_changed v w Hne).
  assert (Ht1 : tidy (run (setSearchImage v) w) = true) by exact Ht.
  pose proof (tidy_cleared _ Ht1) as Hp.
  destruct (debounceCleanup_keeps (run (setSearchImage v) w))
    as (Hn & Hi & Hs & Hd & Hq).
  cbv zeta in Hn, Hi, Hs, Hd, Hq.
  set (w1 := run debounceCleanup (run (setSearchImage v) w)) in *.
  exists (run debounceEffect w1). split; [reflexivity|].
  unfold run, debounceEffect, bind, get_home, setTimeout, keep_handler.
  cbn [snd home set_home emit upd_timers timers pending issued handler
         searchImage debouncedSearchTerm now trace].
  rewrite Hp, Hn, Hi, Hs, Hd.
  do 5 (split; [reflexivity|]).
  rewrite fetches_app, Hq. cbn [fetches flat_map fetchOf app].
  rewrite app_nil_r. now fetches_norm.
Qed.

Lemma advance_pending (t : Z) (tm : Timeout) (w : World) :
  pending (timers (home w)) = [tm] -> t < deadline tm ->
  advance t w = (Ok tt, set_now (Z.max (now w) t) w).
Proof.
  intros Hp Hlt. unfold advance, bind, get_home. rewrite Hp. cbn [filter].
  replace (deadline tm <=? t) with false by (symmetry; apply Z.leb_gt; lia).
  reflexivity.
Qed.

Lemma advance_idle (t : Z) (w : World) :
  pending (timers (home w)) = [] ->
  advance t w = (Ok tt, set_now (Z.max (now w) t) w).
Proof.
  intro Hp. unfold advance, bind, get_home. now rewrite Hp.
Qed.

Lemma timeoutCallback_run (v : string) (w : World) :
  timeoutCallback v w =
  if (v =? debouncedSearchTerm (home w))%string
  then (Ok tt, run (setDebouncedSearchTerm v) w)
  else fetchEffect (run (setDebouncedSearchTerm v) w).
Proof.
  unfold timeoutCallback, homeEffects, bind, get_home, run.
  unfold setDebouncedSearchTerm at 1. cbv beta iota zeta.
  cbn [home set_home emit upd_debouncedSearchTerm searchImage debouncedSearchTerm
         totalImageNumber refreshFetch].
  rewrite String.eqb_refl, Z.eqb_refl, Bool.eqb_reflx. unfold ret at 1.
  cbv beta iota. rewrite !andb_true_r.
  now destruct (v =? debouncedSearchTerm (home w))%string.
Qed.

Lemma fetchEffect_fetches (w : World) :
  exists w',
    fetchEffect w = (Ok tt, w')
    /\ fetches (trace w') = fetches (trace w) ++ [queryFor (debouncedSearchTerm (home w))]
    /\ searchImage (home w') = searchImage (home w)
    /\ debouncedSearchTerm (home w') = debouncedSearchTerm (home w)
    /\ timers (home w') = timers (home w)
    /\ now w' = now w.
Proof.
  unfold fetchEffect. rewrite fetchEffectWith_run. cbv zeta.
  rewrite fetchPictures_run. cbv zeta.
  change (next_fails (run (setLoading true) w)) with (next_fails w).
  destruct (next_fails w).
  - eexists. split; [reflexivity|]. split; [|now repeat split].
    now fetches_norm.
  - match goal with |- context [shown (Val ?found)] => destruct found as [|x l] end;
      (eexists; split; [reflexivity|]; split; [|now repeat split]);
      now fetches_norm.
Qed.

Lemma last_cons {A} (a d : A) (l : list A) : last (a :: l) d = last l a.
Proof.
  revert a d. induction l as [|b l IH]; intros a d; [reflexivity|].
  change (last (a :: b :: l) d) with (last (b :: l) d).
  now rewrite !IH.
Qed.

Lemma tidy_single (w : World) (tm : Timeout) :
  pending (timers (home w)) = [tm] ->
  handler (timers (home w)) = Some (handle tm) ->
  tidy w = true.
Proof.
  intros Hp Hh. unfold tidy. rewrite Hp, Hh. cbn [forallb].
  now rewrite Z.eqb_refl.
Qed.

Lemma typing_burst (keys : list (Z * string)) :
  forall (w : World) (v : string) (k : Z),
    pending (timers (home w)) = [mkTimeout k (now w + 1000) v] ->
    handler (timers (home w)) = Some k ->
    searchImage (home w) = v ->
    burst (now w) v keys ->
    exists w' k',
      typing keys w = (Ok tt, w')
      /\ pending (timers (home w'))
         = [mkTimeout k' (now w' + 1000) (last (map snd keys) v)]
      /\ handler (timers (home w')) = Some k'
      /\ searchImage (home w') = last (map snd keys) v
      /\ now w' = last (map fst keys) (now w)
      /\ debouncedSearchTerm (home w') = debouncedSearchTerm (home w)
      /\ fetches (trace w') = fetches (trace w).
Proof.
  induction keys as [|[t' v'] rest IH]; intros w v k Hp Hh Hs Hb.
  - exists w, k. now repeat split.
  - destruct Hb as (Hlt & Hv & Hb).
    cbn [typing]. unfold bind at 1. unfold keystroke, bind at 1.
    rewrite (advance_pending t' _ w Hp) by (cbn; lia).
    replace (Z.max (now w) t') with t' by lia.
    destruct (onChange_tidy v' (set_now t' w))
      as (w2 & -> & Hs2 & Hp2 & Hh2 & Hn2 & Hd2 & Hq2).
    { exact (tidy_single (set_now t' w) _ Hp Hh). }
    { cbn. congruence. }
    cbn [now set_now] in Hp2, Hn2.
    destruct (IH w2 v' (issued (timers (home (set_now t' w))) + 1))
      as (w' & k' & Hrun & H1 & H1' & H2 & H3 & H4 & H5);
      [now rewrite Hn2 | exact Hh2 | exact Hs2 | now rewrite Hn2 |].
    exists w', k'. split; [exact Hrun|].
    cbn [map fst snd]. rewrite !last_cons.
    split; [exact H1|]. split; [exact H1'|]. split; [exact H2|].
    split; [now rewrite H3, Hn2|]. split; [now rewrite H4, Hd2|].
    now rewrite H5, Hq2.
Qed.

Lemma onChange_sets (x : string) (u : World) :
  result (onChange x) u = Ok tt /\ searchImage (home (run (onChange x) u)) = x.
Proof.
  unfold result, run. destruct (string_dec x (searchImage (home u))) as [E|N].
  - subst x. rewrite onChange_same. now split.
  - rewrite (onChange_changed x u N). split; [reflexivity|].
    destruct (debounceCleanup_keeps (run (setSearchImage x) u)) as (_ & _ & Hs & _).
    cbn [snd]. exact Hs.
Qed.

Lemma advance_due (t : Z) (tm : Timeout) (u : World) :
  pending (timers (home u)) = [tm] -> deadline tm <= t ->
  exists u',
    advance t u = (Ok tt, u')
    /\ debouncedSearchTerm (home u') = captured tm
    /\ searchImage (home u') = searchImage (home u)
    /\ pending (timers (home u')) = []
    /\ fetches (trace u')
       = fetches (trace u)
           ++ (if (captured tm =? debouncedSearchTerm (home u))%string
               then [] else [queryFor (captured tm)]).
Proof.
  intros Hp Hle. unfold advance, bind at 1 2, get_home. rewrite Hp. cbn [filter].
  replace (deadline tm <=? t) with true by (symmetry; apply Z.leb_le; lia).
  cbn [firing_order fold_right insert_due fire_all]. unfold bind at 1, fire.
  rewrite Hp. cbn [existsb filter]. rewrite Z.eqb_refl. cbn [orb negb].
  rewrite timeoutCallback_run.
  cbn [set_now set_home home upd_timers debouncedSearchTerm].
  destruct (captured tm =? debouncedSearchTerm (home u))%string.
  - cbn [ret]. eexists. split; [reflexivity|].
    do 3 (split; [reflexivity|]). now fetches_norm.
  - match goal with |- context [fetchEffect ?a] =>
      destruct (fetchEffect_fetches a) as (u1 & -> & Hf & Hs & Hd & Ht & _) end.
    cbn [ret]. eexists. split; [reflexivity|].
    cbn [set_now home trace]. rewrite Hd, Hs, Hf, Ht.
    do 3 (split; [reflexivity|]). now fetches_norm.
Qed.

(** The invariant holds once [Home] is mounted on a page without
    timeouts. *)
Lemma tidy_mountHome (w : World) :
  pending (timers (home w)) = [] -> tidy (run mountHome w) = true.
Proof.
  intro Hp. unfold run, mountHome, bind. rewrite debounceEffect_run.
  destruct (fetchEffect_fetches (run debounceEffect w)) as (w1 & -> & _ & _ & _ & Ht & _).
  cbn [snd]. unfold tidy. rewrite Ht.
  unfold run, debounceEffect, bind, get_home, setTimeout, keep_handler.
  cbn [snd home set_home emit upd_timers timers pending handler].
  rewrite Hp. cbn [app forallb]. now rewrite Z.eqb_refl.
Qed.

(** C7. A keystroke puts its text in [searchImage] at once and, as it
    changes the text, has the cleanup of the debounce effect clear the
    pending timeout before the effect sets one due a second later, which
    is then the only one pending; a timeout that comes due commits the
    text it closed over to [debouncedSearchTerm].  For a burst of
    keystrokes on a page whose only pending timeout is the one the cleanup
    holds, each changing the text and each less than a second after the
    one before, followed by any wait: no fetch is sent before the burst is
    over, at most one is sent afterwards, and it asks for the text the
    last keystroke left.  The fetch happens exactly when a second has
    passed since the last keystroke and that text differs from the term
    already committed. *)
Theorem C7_debounce_coalesces_burst
    (w : World) (v : string) (keys : list (Z * string)) (T : Z) :
  tidy w = true ->
  v <> searchImage (home w) ->
  burst (now w) v keys ->
  let final := last (map snd keys) v in
  let lastTime := last (map fst keys) (now w) in
  let session := onChange v ;; typing keys ;; advance T in
  let w' := run session w in
  (forall u x, searchImage (home (run (onChange x) u)) = x)
  /\ (forall u x, tidy u = true -> x <> searchImage (home u) ->
        pending (timers (home (run (onChange x) u)))
        = [mkTimeout (issued (timers (home u)) + 1) (now u + 1000) x])
  /\ (forall u tm t, pending (timers (home u)) = [tm] -> deadline tm <= t ->
        debouncedSearchTerm (home (run (advance t) u)) = captured tm
        /\ pending (timers (home (run (advance t) u))) = [])
  /\ result session w = Ok tt
  /\ searchImage (home w') = final
  /\ fetches (trace (run (onChange v ;; typing keys) w)) = fetches (trace w)
  /\ fetches (trace w')
     = fetches (trace w)
         ++ (if (lastTime + 1000 <=? T)
                && negb (final =? debouncedSearchTerm (home w))%string
             then [queryFor final] else [])
  /\ (lastTime + 1000 <= T -> debouncedSearchTerm (home w') = final)
  /\ (T < lastTime + 1000 ->
      debouncedSearchTerm (home w') = debouncedSearchTerm (home w))
  /\ tidy w' = true.
Proof.
  intros Htidy Hv Hb. cbv zeta.
  split; [intros; apply onChange_sets|].
  split.
  { intros u x Hu Hx. unfold run.
    destruct (onChange_tidy x u Hu Hx) as (u' & -> & _ & Hp & _). exact Hp. }
  split.
  { intros u tm t Hp Hle. unfold run.
    destruct (advance_due t tm u Hp Hle) as (u' & -> & Hd & _ & Hp' & _).
    now split. }
  destruct (onChange_tidy v w Htidy Hv) as (w0 & R0 & Hs0 & Hp0 & Hh0 & Hn0 & Hd0 & Hq0).
  rewrite <- Hn0 in Hp0, Hb.
  destruct (typing_burst keys w0 v _ Hp0 Hh0 Hs0 Hb)
    as (w1 & k1 & R1 & H1 & H1' & H2 & H3 & H4 & H5).
  rewrite Hn0 in H3. rewrite Hd0 in H4. rewrite Hq0 in H5.
  unfold result, run, bind. rewrite R0, R1. rewrite <- H3.
  destruct (Z_le_gt_dec (now w1 + 1000) T) as [Hdue|Hearly].
  - destruct (advance_due T _ w1 H1) as (w2 & -> & Hd & Hs & Hp2 & Hf);
      [exact Hdue|].
    cbn [captured] in Hd, Hf.
    cbn [fst snd]. rewrite Hf, H4, H5, Hs, H2, Hd.
    replace (now w1 + 1000 <=? T) with true by (symmetry; apply Z.leb_le; lia).
    cbn [andb].
    split; [reflexivity|]. split; [reflexivity|]. split; [reflexivity|].
    split.
    + now destruct (last (map snd keys) v =? debouncedSearchTerm (home w))%string.
    + split; [reflexivity|]. split; [intro; lia|].
      unfold tidy. now rewrite Hp2.
  - rewrite (advance_pending T _ w1 H1) by (cbn; lia).
    cbn [fst snd set_now home trace]. rewrite H2, H4, H5.
    replace (now w1 + 1000 <=? T) with false by (symmetry; apply Z.leb_gt; lia).
    cbn [andb]. rewrite app_nil_r.
    split; [reflexivity|]. split; [reflexivity|]. split; [reflexivity|].
    split; [reflexivity|]. split; [intro; lia|]. split; [reflexivity|].
    exact (tidy_single (set_now (Z.max (now w1) T) w1) _ H1 H1').
Qed.

(** * Instances on the sample worlds *)


Lemma C2_uploadPicture_duplicate_or_store_witness :
  (name_taken (name catFile) catWorld = true
   /\ result (uploadPicture catFile) catWorld = Ok Null
   /\ files (run (uploadPicture catFile) catWorld) = files catWorld)
  /\ (name_taken (name dogFile) catWorld = false
      /\ accepts 2 catWorld = true
      /\ result (uploadPicture dogFile) catWorld = Ok (Val "u00")
      /\ files (run (uploadPicture dogFile) catWorld)
         = files catWorld ++ [mkStored "u00" "dog.png" "dog-bytes"]).
Proof.
  destruct (C2_uploadPicture_duplicate_or_store catFile catWorld) as (Hdup & _).
  destruct (Hdup eq_refl) as (Hnull & Hfiles & _).
  destruct (C2_uploadPicture_duplicate_or_store dogFile catWorld) as (_ & Hnew).
  destruct (Hnew eq_refl) as (_ & _ & Hstore & _).
  destruct (Hstore eq_refl) as (Hid & Hblob & _).
  split.
  - split; [reflexivity|]. split; [exact Hnull | exact Hfiles].
  - split; [reflexivity|]. split; [reflexivity|]. split; [exact Hid | exact Hblob].
Defined.

Lemma C3_updatePictureDatabase_validates_witness :
  (valid_parameters (Val "f9") (Val "owl.png") (Val (ValidDate 6000)) catWorld = false
   /\ run (updatePictureDatabase (Val "f9") (Val "owl.png") (Val (ValidDate 6000))) catWorld
      = emit rejected catWorld)
  /\ (4800 <= now catWorld
      /\ next_fails catWorld = false
      /\ docs (run (updatePictureDatabase (Val "f9") (Val "owl.png")
                      (Val (ValidDate 4800))) catWorld)
         = docs catWorld
             ++ [mkDoc "u00" (mkData "f9" "owl.png" (Iso 4800)
                                (fileViewUrl sampleConfig "f9"))]).
Proof.
  destruct (C3_updatePictureDatabase_validates
              (Val "f9") (Val "owl.png") (Val (ValidDate 6000)) catWorld)
    as (_ & Hreject & _).
  destruct (C3_updatePictureDatabase_validates
              (Val "f9") (Val "owl.png") (Val (ValidDate 4800)) catWorld)
    as (_ & _ & Hwrite & _).
  assert (Hle : 4800 <= now catWorld) by (cbn; lia).
  destruct (Hwrite "f9" "owl.png" 4800 eq_refl eq_refl eq_refl Hle eq_refl)
    as (Hdocs & _).
  split.
  - split; [reflexivity | exact (Hreject eq_refl)].
  - split; [exact Hle|]. split; [reflexivity | exact Hdocs].
Defined.

Lemma C5_deletePicture_record_then_blob_witness :
  let w := failing [false; true] catWorld in
  record_deletable "d1" w = true
  /\ blob_deletable "f1" (pop_fault w) = false
  /\ docs (run (deletePicture (Val "f1") (Val "d1")) w) = [carDocument]
  /\ files (run (deletePicture (Val "f1") (Val "d1")) w) = files catWorld
  /\ calls (trace (run (deletePicture (Val "f1") (Val "d1")) w))
     = [(DeleteDocument "d1", true); (DeleteFile "f1", false)].
Proof.
  cbv zeta.
  destruct (C5_deletePicture_record_then_blob (Val "f1") (Val "d1")
              (failing [false; true] catWorld)) as (_ & _ & Hboth).
  assert (Hi : "f1" <> "") by discriminate.
  assert (Hd : "d1" <> "") by discriminate.
  destruct (Hboth "f1" "d1" eq_refl eq_refl Hi Hd) as (_ & Horphan & _).
  destruct (Horphan eq_refl eq_refl) as (Hdocs & Hfiles & Hcalls & _).
  split; [reflexivity|]. split; [reflexivity|].
  split; [exact Hdocs|]. split; [exact Hfiles | exact Hcalls].
Defined.

Lemma C6_uploadEffect_pipeline_witness :
  let w := selected dogFile catWorld in
  toUpload (upload w) = true
  /\ image (upload w) = Some dogFile
  /\ name_taken (name dogFile) w = false
  /\ accepts 3 w = true
  /\ toUpload (upload (run uploadEffect w)) = false
  /\ image (upload (run uploadEffect w)) = None
  /\ totalImageNumber (home (run uploadEffect w)) = 3
  /\ docs (run uploadEffect w) = docs catWorld ++ [newRecord w dogFile]
  /\ result (fetchPictures "") (run uploadEffect w)
     = Ok (Val [toImage catDocument; toImage carDocument; toImage (newRecord w dogFile)]).
Proof.
  cbv zeta.
  destruct (C6_uploadEffect_pipeline (selected dogFile catWorld) eq_refl)
    as ((_ & Htrigger & Hfile) & _ & _ & Hok).
  destruct (Hok dogFile eq_refl eq_refl eq_refl)
    as (_ & _ & Hdocs & _ & _ & Htotal & Hfetch).
  split; [reflexivity|]. split; [reflexivity|]. split; [reflexivity|].
  split; [reflexivity|]. split; [exact Htrigger|]. split; [exact Hfile|].
  split; [exact Htotal|]. split; [exact Hdocs|].
  refine (eq_trans (Hfetch _) _); [|reflexivity].
  rewrite (uploadEffect_success dogFile (selected dogFile catWorld)
             eq_refl eq_refl eq_refl eq_refl).
  reflexivity.
Defined.

Lemma C7_debounce_coalesces_burst_witness :
  let keys := [(5300, "ca"); (5900, "cat")] in
  let session := onChange "c" ;; typing keys ;; advance 7000 in
  tidy emptyWorld = true
  /\ "c" <> searchImage (home emptyWorld)
  /\ burst (now emptyWorld) "c" keys
  /\ searchImage (home (run session emptyWorld)) = "cat"
  /\ debouncedSearchTerm (home (run session emptyWorld)) = "cat"
  /\ fetches (trace (run session emptyWorld)) = [[StartsWith "imageName" "cat"]].
Proof.
  cbv zeta.
  assert (Hv : "c" <> searchImage (home emptyWorld)) by discriminate.
  assert (Hb : burst (now emptyWorld) "c" [(5300, "ca"); (5900, "cat")]).
  { cbn. repeat split; try lia; discriminate. }
  destruct (C7_debounce_coalesces_burst emptyWorld "c"
              [(5300, "ca"); (5900, "cat")] 7000 eq_refl Hv Hb)
    as (_ & _ & _ & _ & Hraw & _ & Hfetch & Hcommit & _).
  split; [reflexivity|]. split; [exact Hv|]. split; [exact Hb|]. split; [exact Hraw|].
  split; [|exact Hfetch].
  apply Hcommit. cbn. lia.
Defined.

Lemma C8_gallery_is_pure_rendering_witness :
  [toImage catDocument] <> []
  /\ renderGrid [toImage catDocument]
     = [ImageCard "f1"
          (mkCard "d1" "f1" "cat.png" (fileViewUrl sampleConfig "f1") (Iso 4000))]
  /\ renderGallery (home catWorld) = renderGrid (imageList (home catWorld)).
Proof.
  assert (Hne : [toImage catDocument] <> []) by discriminate.
  destruct (C8_gallery_is_pure_rendering [toImage catDocument]) as (Hcards & _).
  destruct (Hcards Hne) as (Hgrid & _).
  destruct (C8_gallery_is_pure_rendering (imageList (home catWorld))) as (_ & _ & Hpure).
  split; [exact Hne|]. split; [exact Hgrid | exact (Hpure (home catWorld) eq_refl eq_refl)].
Defined.

Lemma C9_total_grows_without_record_witness :
  let w := failing [false; false; true] (selected catFile emptyWorld) in
  image (upload w) = Some catFile
  /\ upload_succeeds catFile w = true
  /\ next_fails (pop_fault (pop_fault w)) = true
  /\ totalImageNumber (home (run handleUpload w)) = 1
  /\ docs (run handleUpload w) = []
  /\ files (run handleUpload w) = [mkStored "u" "cat.png" "cat-bytes"].
Proof.
  cbv zeta.
  destruct C9_total_grows_without_record as (_ & _ & Hlost & _).
  destruct (Hlost (failing [false; false; true] (selected catFile emptyWorld))
              catFile eq_refl eq_refl eq_refl) as (Htotal & Hdocs & Hfiles).
  split; [reflexivity|]. split; [reflexivity|]. split; [reflexivity|].
  split; [exact Htotal|]. split; [exact Hdocs | exact Hfiles].
Defined.

Lemma C10_presence_checks_differ_witness :
  4000 <= now catWorld
  /\ next_fails catWorld = false
  /\ docs (run (updatePictureDatabase (Val "") (Val "owl.png") (Val (ValidDate 4000)))
             catWorld)
     = docs catWorld ++ [newDocument catWorld "" "owl.png" 4000]
  /\ run (deletePicture (Val "") (Val "d1")) catWorld = emit deleteRejected catWorld
  /\ docs (run (deletePicture (Val "") (Val "d1")) catWorld) = docs catWorld.
Proof.
  destruct (C10_presence_checks_differ catWorld) as (_ & Hwrite & Hdelete).
  assert (Hle : 4000 <= now catWorld) by (cbn; lia).
  destruct (Hwrite "" "owl.png" 4000 (or_introl eq_refl) Hle) as (_ & _ & Hdocs).
  destruct (Hdelete (Val "") (Val "d1") (or_introl eq_refl)) as (Hrun & Hkeep & _).
  split; [exact Hle|]. split; [reflexivity|].
  split; [exact (Hdocs eq_refl)|]. split; [exact Hrun | exact Hkeep].
Defined.

(** C3 as first stated fails: the three values are present and the date
    is not in the future, yet no record is written, once because the
    service rejects the request and once because the date is invalid. *)
Lemma C3_updatePictureDatabase_counterexample :
  let w := failing [true] catWorld in
  let persist := updatePictureDatabase (Val "f9") (Val "owl.png") in
  (valid_parameters (Val "f9") (Val "owl.png") (Val (ValidDate 4800)) w = true
   /\ result (persist (Val (ValidDate 4800))) w = Ok tt
   /\ docs (run (persist (Val (ValidDate 4800))) w) = docs w)
  /\ (valid_parameters (Val "f9") (Val "owl.png") (Val InvalidDate) catWorld = true
      /\ next_fails catWorld = false
      /\ result (persist (Val InvalidDate)) catWorld = Ok tt
      /\ docs (run (persist (Val InvalidDate)) catWorld) = docs catWorld).
Proof. cbv zeta. now repeat split. Qed.

(** C6 as first stated fails: with the trigger armed on a file of unused
    name, the service rejects the blob, so that no record is sent, the
    total stays as it is and the next unfiltered search shows no new
    record; and with the trigger armed on a file whose name is taken, the
    effect stops after the existence check. *)
Lemma C6_uploadEffect_counterexample :
  (let w := failing [false; true] (selected dogFile catWorld) in
   toUpload (upload w) = true
   /\ image (upload w) = Some dogFile
   /\ name_taken (name dogFile) w = false
   /\ calls (trace (run uploadEffect w))
      = [(checkRequest dogFile, true); (storeRequest dogFile, false)]
   /\ totalImageNumber (home (run uploadEffect w)) = totalImageNumber (home w)
   /\ docs (run uploadEffect w) = docs w
   /\ result (fetchPictures "") (run uploadEffect w) = Ok (Val (map toImage (docs w))))
  /\ (let w := selected catFile catWorld in
      toUpload (upload w) = true
      /\ image (upload w) = Some catFile
      /\ calls (trace (run uploadEffect w)) = [(checkRequest catFile, true)]
      /\ totalImageNumber (home (run uploadEffect w)) = totalImageNumber (home w)).
Proof. cbv zeta. now repeat split. Qed.

(** The scenario of spec section 8 on the empty store: the counts are 0,
    1 and 0, the search for [cat] finds the uploaded picture, the search
    for [dog] finds nothing, and the store ends empty. *)
Example scenario_on_empty_store :
  result scenario emptyWorld
  = Ok (0, 1, Val [toImage (newRecord (selected catFile emptyWorld) catFile)], Val [], 0)
  /\ docs (run scenario emptyWorld) = []
  /\ files (run scenario emptyWorld) = [].
Proof. now repeat split. Qed.

(** * Further properties *)

(** ** [getTotalPicturesCount] *)

Lemma getTotalPicturesCount_run (w : World) :
  getTotalPicturesCount w =
  if next_fails w
  then (Ok 0,
        emit (ConsoleError "Error fetching total pictures count:"
                [ArgExn (AppwriteException (ListDocuments []))])
          (emit (Call (ListDocuments []) false) (pop_fault w)))
  else (Ok (Z.of_nat (length (docs w))),
        emit (Call (ListDocuments []) true) (pop_fault w)).
Proof.
  unfold getTotalPicturesCount, try_catch, bind. rewrite listDocuments_run.
  destruct (next_fails w); [reflexivity|].
  cbn [total ret]. now rewrite select_nil.
Qed.

(** X1. [getTotalPicturesCount] resolves with the number of documents of
    the collection, or with 0 when its request is rejected; it sends one
    unfiltered list request and changes neither the store nor the state
    of the page. *)
Theorem X1_getTotalPicturesCount_counts (w : World) :
  result getTotalPicturesCount w = Ok (counted w)
  /\ calls (trace (run getTotalPicturesCount w))
     = calls (trace w) ++ [(ListDocuments [], negb (next_fails w))]
  /\ docs (run getTotalPicturesCount w) = docs w
  /\ files (run getTotalPicturesCount w) = files w
  /\ home (run getTotalPicturesCount w) = home w.
Proof.
  unfold result, run, counted. rewrite getTotalPicturesCount_run.
  destruct (next_fails w); cbn [fst snd trace emit pop_fault set_faults];
    rewrite !calls_app, <- ?app_assoc; now repeat split.
Qed.

(** ** The delete button *)

Lemma deletePicture_keeps (imageId documentId : Nullable string) (w : World) :
  let w' := run (deletePicture imageId documentId) w in
  home w' = home w /\ upload w' = upload w /\ now w' = now w
  /\ fetches (trace w') = fetches (trace w).
Proof.
  cbv zeta. unfold run.
  destruct (falsy imageId || falsy documentId) eqn:Hf.
  - rewrite (deletePicture_absent _ _ _ Hf).
    do 3 (split; [reflexivity|]). now fetches_norm.
  - apply orb_false_iff in Hf as [Hi Hd].
    destruct (truthy imageId) as [i|] eqn:Ei;
      [|apply truthy_falsy in Ei; congruence].
    destruct (truthy documentId) as [d|] eqn:Ed;
      [|apply truthy_falsy in Ed; congruence].
    apply truthy_Some in Ei as [-> Hin]. apply truthy_Some in Ed as [-> Hdn].
    rewrite (deletePicture_run i d w Hin Hdn).
    destruct (record_deletable d w); [destruct (blob_deletable i (pop_fault w))|];
      (do 3 (split; [reflexivity|])); now fetches_norm.
Qed.

Lemma handleDelete_run (props : ImageCardProps) (w : World) :
  handleDelete props w
  = (Ok tt,
     run (setRefreshFetch negb)
       (emit (ConsoleLog "Image deleted successfully." [])
          (run (deletePicture (Val (cId props)) (Val (cDocumentId props))) w))).
Proof.
  unfold handleDelete, try_catch, bind, run.
  destruct (deletePicture_no_throw (Val (cId props)) (Val (cDocumentId props)) w)
    as ([] & w1 & ->).
  reflexivity.
Qed.

(** X3. [handleDelete] never fails and never inspects what [deletePicture]
    did: in every case, also when nothing was deleted, it logs the success
    line and flips [refreshFetch]; it leaves the displayed total and the
    list as they are, and the bucket and the collection as [deletePicture]
    left them. *)
Theorem X3_handleDelete_always_refreshes (props : ImageCardProps) (w : World) :
  let w1 := run (deletePicture (Val (cId props)) (Val (cDocumentId props))) w in
  let w' := run (handleDelete props) w in
  result (handleDelete props) w = Ok tt
  /\ refreshFetch (home w') = negb (refreshFetch (home w))
  /\ totalImageNumber (home w') = totalImageNumber (home w)
  /\ imageList (home w') = imageList (home w)
  /\ docs w' = docs w1
  /\ files w' = files w1
  /\ trace w'
     = trace w1 ++ [ConsoleLog "Image deleted successfully." [];
                    SetRefreshFetch (negb (refreshFetch (home w)))].
Proof.
  cbv zeta.
  assert (Hrun : run (handleDelete props) w
                 = run (setRefreshFetch negb)
                     (emit (ConsoleLog "Image deleted successfully." [])
                        (run (deletePicture (Val (cId props))
                                (Val (cDocumentId props))) w)))
    by (unfold run at 1; now rewrite handleDelete_run).
  destruct (deletePicture_keeps (Val (cId props)) (Val (cDocumentId props)) w)
    as (Hh & _).
  unfold result. rewrite handleDelete_run, Hrun.
  set (w1 := run (deletePicture _ _) w) in *.
  unfold run.
  cbn [fst snd setRefreshFetch emit set_home home upd_refreshFetch refreshFetch
         totalImageNumber imageList docs files trace].
  rewrite Hh, <- app_assoc. now repeat split.
Qed.

(** ** Renders after a handler *)

Lemma homeEffects_same_text (prev : HomeState) (w : World) :
  searchImage (home w) = searchImage prev ->
  homeEffects prev w =
  if (debouncedSearchTerm (home w) =? debouncedSearchTerm prev)%string
     && (totalImageNumber (home w) =? totalImageNumber prev)
     && Bool.eqb (refreshFetch (home w)) (refreshFetch prev)
  then (Ok tt, w)
  else fetchEffect w.
Proof.
  intro Hs. unfold homeEffects, bind, get_home, ret.
  rewrite Hs, String.eqb_refl. cbv beta iota.
  now destruct (_ && _).
Qed.

Lemma fetchEffect_state (w : World) :
  let q := debouncedSearchTerm (home w) in
  let w' := run fetchEffect w in
  fetchEffect w = (Ok tt, w')
  /\ home w' = upd_loading false (upd_imageList (fetched q w) (upd_loading true (home w)))
  /\ docs w' = docs w
  /\ files w' = files w
  /\ upload w' = upload w
  /\ now w' = now w
  /\ faults w' = tl (faults w)
  /\ fetches (trace w') = fetches (trace w) ++ [queryFor q].
Proof.
  cbv zeta. unfold run, fetched, fetchEffect.
  rewrite fetchEffectWith_run. cbv zeta.
  rewrite fetchPictures_run. cbv zeta.
  change (next_fails (run (setLoading true) w)) with (next_fails w).
  change (docs (run (setLoading true) w)) with (docs w).
  destruct (next_fails w).
  - split; [reflexivity|]. split; [reflexivity|].
    do 5 (split; [reflexivity|]). now fetches_norm.
  - destruct (map toImage _) as [|x l];
      (split; [reflexivity|]; split; [reflexivity|];
       do 5 (split; [reflexivity|]); now fetches_norm).
Qed.

Lemma eqb_negb_false (b : bool) : Bool.eqb (negb b) b = false.
Proof. now destruct b. Qed.

Lemma has_doc_without (d : string) (l : list Document) :
  forall x, In x (without_doc d l) -> docId x <> d.
Proof.
  intros x Hin. apply filter_In in Hin as [_ Hx].
  apply negb_true_iff in Hx. now apply String.eqb_neq.
Qed.

Lemma handleDelete_world (props : ImageCardProps) (w : World) :
  let w1 := run (deletePicture (Val (cId props)) (Val (cDocumentId props))) w in
  let w' := run (handleDelete props) w in
  home w' = upd_refreshFetch (negb (refreshFetch (home w))) (home w)
  /\ docs w' = docs w1
  /\ files w' = files w1
  /\ faults w' = faults w1
  /\ fetches (trace w') = fetches (trace w).
Proof.
  cbv zeta.
  destruct (deletePicture_keeps (Val (cId props)) (Val (cDocumentId props)) w)
    as (Hh & _ & _ & Hq).
  assert (Hrun : run (handleDelete props) w
                 = run (setRefreshFetch negb)
                     (emit (ConsoleLog "Image deleted successfully." [])
                        (run (deletePicture (Val (cId props))
                                (Val (cDocumentId props))) w)))
    by (unfold run at 1; now rewrite handleDelete_run).
  rewrite Hrun.
  set (w1 := run (deletePicture _ _) w) in *.
  unfold run.
  cbn [snd setRefreshFetch emit set_home home docs files faults].
  rewrite Hh. do 4 (split; [reflexivity|]).
  rewrite <- Hq. now fetches_norm.
Qed.

Lemma deletePicture_success (i d : string) (w : World) :
  i <> "" -> d <> "" ->
  has_doc d w = true -> has_file i w = true -> accepts 2 w = true ->
  let w' := run (deletePicture (Val i) (Val d)) w in
  docs w' = without_doc d (docs w)
  /\ files w' = without_file i (files w)
  /\ faults w' = tl (tl (faults w)).
Proof.
  intros Hi Hd Hhd Hhf Ha. cbv zeta.
  apply accepts_S in Ha as [H1 Ha]. apply accepts_S in Ha as [H2 _].
  unfold run. rewrite (deletePicture_run i d w Hi Hd).
  unfold record_deletable, blob_deletable.
  change (has_file i (pop_fault w)) with (has_file i w).
  rewrite H1, H2, Hhd, Hhf. now repeat split.
Qed.

Lemma deleteFlow_run (props : ImageCardProps) (w : World) :
  deleteFlow props w = fetchEffect (run (handleDelete props) w).
Proof.
  destruct (handleDelete_world props w) as (Hh & _).
  unfold deleteFlow, rendering, bind, get_home.
  assert (Hr : handleDelete props w = (Ok tt, run (handleDelete props) w))
    by (unfold run; now rewrite handleDelete_run).
  rewrite Hr.
  set (w2 := run (handleDelete props) w) in *.
  rewrite homeEffects_same_text by now rewrite Hh.
  rewrite Hh.
  cbn [upd_refreshFetch debouncedSearchTerm totalImageNumber refreshFetch].
  now rewrite eqb_negb_false, andb_false_r.
Qed.

(** X4. Pressing the delete button of a card always ends in exactly one
    new fetch for the debounced term, with [loading] back to false.  When
    the card's record and blob exist and the service accepts the three
    requests, both are gone afterwards and the list shown is the matching
    records of the remaining collection: the deleted record is not in
    it. *)
Theorem X4_deleteFlow_refetches (props : ImageCardProps) (w : World) :
  let q := debouncedSearchTerm (home w) in
  let i := cId props in
  let d := cDocumentId props in
  let w' := run (deleteFlow props) w in
  result (deleteFlow props) w = Ok tt
  /\ fetches (trace w') = fetches (trace w) ++ [queryFor q]
  /\ loading (home w') = false
  /\ (i <> "" -> d <> "" ->
      has_doc d w = true -> has_file i w = true -> accepts 3 w = true ->
      docs w' = without_doc d (docs w)
      /\ files w' = without_file i (files w)
      /\ imageList (home w')
         = map toImage (filter (startsWith q) (without_doc d (docs w)))
      /\ ~ In d (map documentId (imageList (home w')))).
Proof.
  cbv zeta.
  destruct (handleDelete_world props w) as (Hh & Hd & Hf & Hfl & Hfq).
  destruct (fetchEffect_state (run (handleDelete props) w))
    as (Hrun & Hh' & Hd' & Hf' & _ & _ & _ & Hq).
  cbv zeta in Hrun, Hh', Hq.
  assert (Hflow : run (deleteFlow props) w
                  = run fetchEffect (run (handleDelete props) w))
    by (unfold run at 1; rewrite deleteFlow_run, Hrun; reflexivity).
  unfold result. rewrite deleteFlow_run, Hrun, Hflow. cbn [fst].
  rewrite Hq, Hfq, Hh', Hd', Hf', Hd, Hf, Hh.
  cbn [upd_refreshFetch upd_loading upd_imageList debouncedSearchTerm loading imageList].
  split; [reflexivity|]. split; [reflexivity|]. split; [reflexivity|].
  intros Hi Hdn Hhd Hhf Ha.
  assert (Ha2 : accepts 2 w = true).
  { apply accepts_S in Ha as [H1 Ha]. apply accepts_S in Ha as [H2 _].
    apply accepts_S. split; [assumption|]. now apply accepts_S. }
  destruct (deletePicture_success _ _ w Hi Hdn Hhd Hhf Ha2) as (Hdocs & Hfiles & Hfaults).
  cbv zeta in Hdocs, Hfiles, Hfaults.
  assert (Hnf : next_fails (run (handleDelete props) w) = false).
  { unfold next_fails. rewrite Hfl, Hfaults.
    apply accepts_S in Ha as [_ Ha]. apply accepts_S in Ha as [_ Ha].
    apply accepts_S in Ha as [H3 _]. exact H3. }
  unfold fetched. rewrite Hnf, Hd, Hdocs, Hfiles.
  split; [reflexivity|]. split; [reflexivity|]. split; [reflexivity|].
  intro Hin. apply in_map_iff in Hin as (im & Him & Hin).
  apply in_map_iff in Hin as (x & <- & Hx).
  apply filter_In in Hx as [Hx _].
  now apply (has_doc_without _ _ _ Hx).
Qed.

Lemma X4_deleteFlow_refetches_witness :
  let props := cardOf catDocument in
  cId props <> "" /\ cDocumentId props <> ""
  /\ has_doc (cDocumentId props) catWorld = true
  /\ has_file (cId props) catWorld = true
  /\ accepts 3 catWorld = true
  /\ docs (run (deleteFlow props) catWorld) = [carDocument]
  /\ files (run (deleteFlow props) catWorld) = [mkStored "f2" "car.png" "car-bytes"]
  /\ imageList (home (run (deleteFlow props) catWorld)) = [toImage carDocument].
Proof.
  cbv zeta.
  assert (Hi : cId (cardOf catDocument) <> "") by discriminate.
  assert (Hd : cDocumentId (cardOf catDocument) <> "") by discriminate.
  destruct (X4_deleteFlow_refetches (cardOf catDocument) catWorld)
    as (_ & _ & _ & Hok).
  destruct (Hok Hi Hd eq_refl eq_refl eq_refl) as (Hdocs & Hfiles & Hlist & _).
  split; [exact Hi|]. split; [exact Hd|].
  split; [reflexivity|]. split; [reflexivity|]. split; [reflexivity|].
  split; [exact Hdocs|]. split; [exact Hfiles | exact Hlist].
Defined.

(** ** The upload control *)

Lemma filter_all_in {A} (p : A -> bool) (l : list A) :
  (forall x, In x l -> p x = true) -> filter p l = l.
Proof.
  induction l as [|x l IH]; intro H; [reflexivity|].
  cbn [filter]. rewrite (H x (or_introl eq_refl)).
  f_equal. apply IH. intros y Hy. apply H. now right.
Qed.

Lemma accepts_faults (n : nat) :
  forall w w', faults w = faults w' -> accepts n w = accepts n w'.
Proof.
  induction n as [|n IH]; intros w w' Hf; [reflexivity|].
  cbn [accepts]. unfold next_fails. rewrite Hf. f_equal.
  apply IH. cbn. now rewrite Hf.
Qed.

Lemma without_doc_snoc (l : list Document) (x : Document) :
  ~ In (docId x) (map docId l) -> without_doc (docId x) (l ++ [x]) = l.
Proof.
  intro Hn. unfold without_doc. rewrite filter_app. cbn [filter].
  rewrite String.eqb_refl. cbn [negb]. rewrite app_nil_r.
  apply filter_all_in. intros y Hy. apply negb_true_iff, String.eqb_neq.
  intro E. apply Hn. rewrite <- E. now apply in_map.
Qed.

Lemma without_file_snoc (l : list StoredFile) (x : StoredFile) :
  ~ In (sfId x) (map sfId l) -> without_file (sfId x) (l ++ [x]) = l.
Proof.
  intro Hn. unfold without_file. rewrite filter_app. cbn [filter].
  rewrite String.eqb_refl. cbn [negb]. rewrite app_nil_r.
  apply filter_all_in. intros y Hy. apply negb_true_iff, String.eqb_neq.
  intro E. apply Hn. rewrite <- E. now apply in_map.
Qed.

Lemma has_doc_snoc (x : Document) (w w1 : World) :
  docs w1 = docs w ++ [x] -> has_doc (docId x) w1 = true.
Proof.
  intro H. unfold has_doc. rewrite H, existsb_app. cbn [existsb].
  now rewrite String.eqb_refl, orb_true_r.
Qed.

Lemma has_file_snoc (x : StoredFile) (w w1 : World) :
  files w1 = files w ++ [x] -> has_file (sfId x) w1 = true.
Proof.
  intro H. unfold has_file. rewrite H, existsb_app. cbn [existsb].
  now rewrite String.eqb_refl, orb_true_r.
Qed.

(** X5. Uploading a file of unused name and then deleting the card of the
    record just written gives back the bucket and the collection as they
    were, when the service accepts the five requests.  The displayed
    total does not come back: the upload incremented it and the deletion
    leaves it alone. *)
Theorem X5_upload_then_delete_restores_store (f : File) (w : World) :
  toUpload (upload w) = true ->
  image (upload w) = Some f ->
  name_taken (name f) w = false ->
  accepts 5 w = true ->
  let w1 := run uploadEffect w in
  let w2 := run (handleDelete (cardOf (newRecord w f))) w1 in
  docs w1 = docs w ++ [newRecord w f]
  /\ files w1 = files w ++ [newBlob w f]
  /\ docs w2 = docs w
  /\ files w2 = files w
  /\ totalImageNumber (home w2) = totalImageNumber (home w) + 1.
Proof.
  intros Ht Hi Hn Ha. cbv zeta.
  assert (Ha3 : accepts 3 w = true).
  { apply accepts_S in Ha as [H1 Ha]. apply accepts_S in Ha as [H2 Ha].
    apply accepts_S in Ha as [H3 _].
    apply accepts_S. split; [assumption|]. apply accepts_S. split; [assumption|].
    now apply accepts_S. }
  pose proof (uploadEffect_success f w Ht Hi Hn Ha3) as Hw1. cbv zeta in Hw1.
  set (w1 := run uploadEffect w) in *.
  assert (Hd1 : docs w1 = docs w ++ [newRecord w f]) by now rewrite Hw1.
  assert (Hf1 : files w1 = files w ++ [newBlob w f]) by now rewrite Hw1.
  assert (Hfl : faults w1 = faults (pop_fault (pop_fault (pop_fault w))))
    by now rewrite Hw1.
  assert (Htot : totalImageNumber (home w1) = totalImageNumber (home w) + 1)
    by now rewrite Hw1.
  assert (Ha2 : accepts 2 w1 = true).
  { rewrite (accepts_faults 2 _ _ Hfl).
    apply accepts_S in Ha as [_ Ha]. apply accepts_S in Ha as [_ Ha].
    apply accepts_S in Ha as [_ Ha]. exact Ha. }
  destruct (handleDelete_world (cardOf (newRecord w f)) w1)
    as (Hh & Hd & Hf & _).
  cbv zeta in Hh, Hd, Hf.
  destruct (deletePicture_success (sfId (newBlob w f)) (docId (newRecord w f)) w1)
    as (Hd2 & Hf2 & _);
    [apply fresh_id_nonempty | apply fresh_id_nonempty
    | exact (has_doc_snoc _ _ _ Hd1) | exact (has_file_snoc _ _ _ Hf1)
    | exact Ha2 |].
  cbv zeta in Hd2, Hf2.
  change (cId (cardOf (newRecord w f))) with (sfId (newBlob w f)) in Hd, Hf.
  change (cDocumentId (cardOf (newRecord w f))) with (docId (newRecord w f)) in Hd, Hf.
  split; [exact Hd1|]. split; [exact Hf1|].
  rewrite Hd, Hf, Hd2, Hf2, Hd1, Hf1, Hh.
  split; [apply without_doc_snoc, fresh_id_fresh|].
  split; [apply without_file_snoc, fresh_id_fresh|].
  exact Htot.
Qed.

Lemma X5_upload_then_delete_restores_store_witness :
  let w := selected dogFile catWorld in
  let w2 := run (handleDelete (cardOf (newRecord w dogFile))) (run uploadEffect w) in
  toUpload (upload w) = true
  /\ image (upload w) = Some dogFile
  /\ name_taken (name dogFile) w = false
  /\ accepts 5 w = true
  /\ docs w2 = docs catWorld
  /\ files w2 = files catWorld
  /\ totalImageNumber (home w2) = 3.
Proof.
  cbv zeta.
  destruct (X5_upload_then_delete_restores_store dogFile (selected dogFile catWorld)
              eq_refl eq_refl eq_refl eq_refl) as (_ & _ & Hd & Hf & Ht).
  do 4 (split; [reflexivity|]).
  split; [exact Hd|]. split; [exact Hf | exact Ht].
Defined.

(** X6. The upload effect runs an upload at most once per armed trigger:
    once it has run, running it again, as React does when [toUpload] and
    [image] change, does nothing at all. *)
Theorem X6_uploadEffect_runs_once (w : World) :
  uploadEffect (run uploadEffect w) = (Ok tt, run uploadEffect w).
Proof.
  apply uploadEffect_unarmed.
  destruct (toUpload (upload w)) eqn:Ht.
  - now rewrite (uploadEffect_world w Ht).
  - unfold run. now rewrite (uploadEffect_unarmed w Ht).
Qed.

(** X7. Without an armed trigger the upload effect does nothing; with the
    trigger armed but no file stored it logs the missing file, clears the
    trigger and sends no request.  In both cases the store and the
    displayed total stay as they are. *)
Theorem X7_uploadEffect_needs_trigger_and_file (w : World) :
  (toUpload (upload w) = false -> run uploadEffect w = w)
  /\ (toUpload (upload w) = true -> image (upload w) = None ->
      trace (run uploadEffect w)
      = trace w ++ [ConsoleError "No image selected for upload." [];
                    SetToUpload false; SetImage None]
      /\ toUpload (upload (run uploadEffect w)) = false
      /\ docs (run uploadEffect w) = docs w
      /\ files (run uploadEffect w) = files w
      /\ home (run uploadEffect w) = home w).
Proof.
  split.
  - intro Ht. unfold run. now rewrite (uploadEffect_unarmed w Ht).
  - intros Ht Hi. rewrite (uploadEffect_world w Ht).
    unfold run at 3 6 9 12 15. rewrite (handleUpload_no_image w Hi).
    unfold run. cbn. rewrite <- !app_assoc. now repeat split.
Qed.

Lemma X7_uploadEffect_needs_trigger_and_file_witness :
  let armed := run (setToUpload true) catWorld in
  (toUpload (upload catWorld) = false /\ run uploadEffect catWorld = catWorld)
  /\ (toUpload (upload armed) = true
      /\ image (upload armed) = None
      /\ docs (run uploadEffect armed) = docs catWorld
      /\ files (run uploadEffect armed) = files catWorld).
Proof.
  cbv zeta.
  destruct (X7_uploadEffect_needs_trigger_and_file catWorld) as (Hidle & _).
  destruct (X7_uploadEffect_needs_trigger_and_file (run (setToUpload true) catWorld))
    as (_ & Harmed).
  destruct (Harmed eq_refl eq_refl) as (_ & _ & Hd & Hf & _).
  split; [split; [reflexivity | exact (Hidle eq_refl)]|].
  split; [reflexivity|]. split; [reflexivity|]. split; [exact Hd | exact Hf].
Defined.

Lemma name_taken_false (n : string) (w : World) :
  name_taken n w = false -> ~ In n (map sfName (files w)).
Proof.
  unfold name_taken. intros H Hin.
  apply in_map_iff in Hin as (x & Hx & Hin).
  assert (Ht : existsb (fun f => (sfName f =? n)%string) (files w) = true).
  { apply existsb_exists. exists x. split; [exact Hin|]. now apply String.eqb_eq. }
  congruence.
Qed.

Lemma NoDup_snoc {A} (l : list A) (x : A) :
  NoDup l -> ~ In x l -> NoDup (l ++ [x]).
Proof.
  induction 1 as [|y l Hy Hl IH]; intro Hx.
  - constructor; [intros []|constructor].
  - cbn. constructor.
    + intro Hin. apply in_app_or in Hin as [Hin|[->|[]]]; [now apply Hy|].
      apply Hx. now left.
    + apply IH. intro Hin. apply Hx. now right.
Qed.

Lemma uploadPicture_files (f : File) (w : World) :
  files (run (uploadPicture f) w)
  = if upload_succeeds f w then files w ++ [newBlob w f] else files w.
Proof.
  unfold run. destruct (upload_succeeds f w) eqn:Hs.
  - now rewrite (uploadPicture_succeeds f w Hs).
  - destruct (uploadPicture_null f w Hs) as (w1 & -> & _ & _ & Hf). exact Hf.
Qed.

Lemma handleUpload_store (f : File) (w : World) :
  image (upload w) = Some f ->
  files (run handleUpload w) = files (run (uploadPicture f) w).
Proof.
  intro Hi. unfold run.
  destruct (uploadPicture_no_throw f w) as (r & w1 & Hu).
  rewrite (handleUpload_run f w w1 r Hi Hu), Hu. cbn [snd].
  destruct (truthy r) as [id|]; [|reflexivity].
  cbv zeta. cbn [snd].
  destruct (updatePictureDatabase_keeps (Val id) (Val (name f))
              (Val (ValidDate (now w1))) w1) as (_ & _ & Hf & _).
  unfold run in *. cbn [setTotalImageNumber snd emit set_home files]. exact Hf.
Qed.

Lemma uploadEffect_files (w : World) :
  files (run uploadEffect w)
  = match image (upload w) with
    | Some f => if toUpload (upload w) && upload_succeeds f w
                then files w ++ [newBlob w f] else files w
    | None => files w
    end.
Proof.
  destruct (toUpload (upload w)) eqn:Ht.
  - rewrite (uploadEffect_world w Ht).
    change (files (run (setImage None) (run (setToUpload false) ?x))) with (files x).
    destruct (image (upload w)) as [f|] eqn:Hi.
    + rewrite (handleUpload_store f w Hi), uploadPicture_files. reflexivity.
    + unfold run. now rewrite (handleUpload_no_image w Hi).
  - unfold run. rewrite (uploadEffect_unarmed w Ht). now destruct (image (upload w)).
Qed.

(** X8. The upload control keeps the names of the bucket pairwise
    distinct: if no two blobs share a name before the upload effect runs,
    none do after it, whatever the file and whatever the service
    answers. *)
Theorem X8_uploadEffect_keeps_names_distinct (w : World) :
  NoDup (map sfName (files w)) ->
  NoDup (map sfName (files (run uploadEffect w))).
Proof.
  intro Hnd. rewrite uploadEffect_files.
  destruct (image (upload w)) as [f|]; [|exact Hnd].
  destruct (toUpload (upload w) && upload_succeeds f w) eqn:Hs; [|exact Hnd].
  apply andb_true_iff in Hs as [_ Hs]. unfold upload_succeeds in Hs.
  apply andb_true_iff in Hs as [Hn _]. apply negb_true_iff in Hn.
  rewrite map_app. cbn [map newBlob sfName].
  apply NoDup_snoc; [exact Hnd | now apply name_taken_false].
Qed.

Lemma X8_uploadEffect_keeps_names_distinct_witness :
  NoDup (map sfName (files (selected dogFile catWorld)))
  /\ NoDup (map sfName (files (run uploadEffect (selected dogFile catWorld)))).
Proof.
  assert (H : NoDup (map sfName (files (selected dogFile catWorld)))).
  { cbn. repeat constructor; cbn; intuition discriminate. }
  split; [exact H | exact (X8_uploadEffect_keeps_names_distinct _ H)].
Defined.

(** X9. Once a file has been uploaded, uploading any file of the same
    name again is refused: [uploadPicture] returns [null] and the bucket
    stays as the first upload left it, whatever the service answers. *)
Theorem X9_second_upload_of_a_name_is_refused (f g : File) (w : World) :
  upload_succeeds f w = true ->
  name g = name f ->
  let w1 := run (uploadPicture f) w in
  result (uploadPicture g) w1 = Ok Null
  /\ files (run (uploadPicture g) w1) = files w1
  /\ files w1 = files w ++ [newBlob w f].
Proof.
  intros Hs Hg. cbv zeta.
  assert (Hf1 : files (run (uploadPicture f) w) = files w ++ [newBlob w f])
    by now rewrite uploadPicture_files, Hs.
  assert (Ht : name_taken (name g) (run (uploadPicture f) w) = true).
  { unfold name_taken. rewrite Hf1, existsb_app, Hg. cbn [existsb newBlob sfName].
    now rewrite String.eqb_refl, orb_true_r. }
  assert (Hn : upload_succeeds g (run (uploadPicture f) w) = false)
    by (unfold upload_succeeds; now rewrite Ht).
  destruct (uploadPicture_null g _ Hn) as (w2 & Hu & _ & _ & Hf2).
  unfold result. unfold run at 2. rewrite Hu. cbn [fst snd].
  split; [reflexivity|]. split; [exact Hf2 | exact Hf1].
Qed.

Lemma X9_second_upload_of_a_name_is_refused_witness :
  let again := mkFile "dog.png" "other-bytes" in
  upload_succeeds dogFile catWorld = true
  /\ name again = name dogFile
  /\ result (uploadPicture again) (run (uploadPicture dogFile) catWorld) = Ok Null.
Proof.
  cbv zeta.
  destruct (X9_second_upload_of_a_name_is_refused dogFile
              (mkFile "dog.png" "other-bytes") catWorld eq_refl eq_refl) as (H & _).
  split; [reflexivity|]. split; [reflexivity | exact H].
Defined.

Lemma rejections_app (a b : list Event) :
  rejections (a ++ b) = rejections a ++ rejections b.
Proof. apply filter_app. Qed.

(** Brings the rejections of an explicit trace to the front. *)
Ltac rejections_norm :=
  unfold run;
  cbn [snd fst trace home emit set_home set_docs set_files set_faults set_now set_upload
         pop_fault setLoading setImageList setTotalImageNumber setSearchImage
         setDebouncedSearchTerm setToUpload setImage setTimeout clearTimeout];
  rewrite ?rejections_app;
  cbn [rejections filter is_rejection String.eqb Ascii.eqb Bool.eqb app
         uploaded uploadFailed written writeFailed];
  rewrite ?app_nil_r.

Lemma uploadPicture_no_rejection (f : File) (w : World) :
  rejections (trace (run (uploadPicture f) w)) = rejections (trace w).
Proof.
  unfold run. rewrite uploadPicture_run. cbv zeta.
  destruct (next_fails w); [now rejections_norm|].
  destruct (name_taken (name f) w); [now rejections_norm|].
  destruct (next_fails _); now rejections_norm.
Qed.

Lemma persist_now_no_rejection (i n : string) (w : World) :
  rejections (trace (run (updatePictureDatabase (Val i) (Val n)
                            (Val (ValidDate (now w)))) w))
  = rejections (trace w).
Proof.
  unfold run. rewrite updatePictureDatabase_valid by lia.
  destruct (next_fails w); now rejections_norm.
Qed.

Lemma handleUpload_no_rejection (w : World) :
  rejections (trace (run handleUpload w)) = rejections (trace w).
Proof.
  destruct (image (upload w)) as [f|] eqn:Hi.
  - destruct (uploadPicture_no_throw f w) as (r & w1 & Hu).
    pose proof (uploadPicture_no_rejection f w) as H1.
    unfold run in H1. rewrite Hu in H1. cbn [snd] in H1.
    unfold run at 1. rewrite (handleUpload_run f w w1 r Hi Hu).
    destruct (truthy r) as [id|].
    + cbv zeta. cbn [snd].
      pose proof (persist_now_no_rejection id (name f) w1) as H2.
      set (w2 := run (updatePictureDatabase _ _ _) w1) in *.
      rejections_norm. now rewrite H2, H1.
    + rejections_norm. exact H1.
  - unfold run. rewrite (handleUpload_no_image w Hi). now rejections_norm.
Qed.

(** X10. The upload control never has its record rejected by the
    validation of [updatePictureDatabase]: the identifier it passes is
    truthy, the name is the file's and the date is the clock's, so the
    rejection line is never printed by the upload effect. *)
Theorem X10_uploadEffect_is_never_rejected (w : World) :
  rejections [rejected] = [rejected]
  /\ rejections (trace (run uploadEffect w)) = rejections (trace w).
Proof.
  split; [reflexivity|].
  destruct (toUpload (upload w)) eqn:Ht.
  - rewrite (uploadEffect_world w Ht).
    pose proof (handleUpload_no_rejection w) as H.
    set (w1 := run handleUpload w) in *.
    rejections_norm. exact H.
  - unfold run. now rewrite (uploadEffect_unarmed w Ht).
Qed.

(** ** Deleting again *)

Lemma has_doc_without_doc (d : string) (w w1 : World) :
  docs w1 = without_doc d (docs w) -> has_doc d w1 = false.
Proof.
  intro H. unfold has_doc. rewrite H.
  destruct (existsb _ _) eqn:E; [|reflexivity].
  apply existsb_exists in E as (x & Hx & Hid).
  apply String.eqb_eq in Hid. now apply has_doc_without in Hx.
Qed.

Lemma deletePicture_record_missing (i d : string) (w : World) :
  i <> "" -> d <> "" -> has_doc d w = false ->
  let w' := run (deletePicture (Val i) (Val d)) w in
  docs w' = docs w
  /\ files w' = files w
  /\ calls (trace w') = calls (trace w) ++ [(DeleteDocument d, false)].
Proof.
  intros Hi Hd Hh. cbv zeta. unfold run.
  rewrite (deletePicture_run i d w Hi Hd).
  unfold record_deletable. rewrite Hh, andb_false_r.
  cbn [snd docs files trace emit pop_fault set_faults].
  rewrite !calls_app, <- app_assoc. now repeat split.
Qed.

(** X11. Once [deletePicture] has deleted the record of a picture, calling
    it again for the same picture can never reach the blob: whatever the
    service answers, the second call stops at the failed deletion of the
    record and leaves bucket and collection as they are.  A blob orphaned
    by a failed blob deletion therefore stays in the bucket. *)
Theorem X11_deletePicture_cannot_be_retried (i d : string) (w : World) (fl : list bool) :
  i <> "" -> d <> "" ->
  record_deletable d w = true ->
  let remove := deletePicture (Val i) (Val d) in
  let w1 := run remove w in
  let w2 := run remove (failing fl w1) in
  docs w1 = without_doc d (docs w)
  /\ docs w2 = docs w1
  /\ files w2 = files w1
  /\ calls (trace w2) = calls (trace w1) ++ [(DeleteDocument d, false)]
  /\ (blob_deletable i (pop_fault w) = false ->
      files w2 = files w /\ has_file i w2 = has_file i w).
Proof.
  intros Hi Hd Hr. cbv zeta.
  assert (Hd1 : docs (run (deletePicture (Val i) (Val d)) w) = without_doc d (docs w)).
  { unfold run. rewrite (deletePicture_run i d w Hi Hd), Hr. cbv zeta.
    now destruct (blob_deletable i (pop_fault w)). }
  set (w1 := run (deletePicture (Val i) (Val d)) w) in *.
  destruct (deletePicture_record_missing i d (failing fl w1) Hi Hd)
    as (Hd2 & Hf2 & Hc2); [exact (has_doc_without_doc d w _ Hd1)|].
  cbv zeta in Hd2, Hf2, Hc2.
  split; [exact Hd1|]. split; [exact Hd2|]. split; [exact Hf2|].
  split; [exact Hc2|].
  intro Hb.
  assert (Hf1 : files w1 = files w).
  { subst w1. unfold run. rewrite (deletePicture_run i d w Hi Hd), Hr. cbv zeta.
    now rewrite Hb. }
  unfold has_file. rewrite Hf2. cbn [failing set_faults files].
  now rewrite Hf1.
Qed.

Lemma X11_deletePicture_cannot_be_retried_witness :
  let w := failing [false; true] catWorld in
  let remove := deletePicture (Val "f1") (Val "d1") in
  "f1" <> "" /\ "d1" <> ""
  /\ record_deletable "d1" w = true
  /\ blob_deletable "f1" (pop_fault w) = false
  /\ files (run remove (failing [] (run remove w))) = files catWorld
  /\ has_file "f1" (run remove (failing [] (run remove w))) = true.
Proof.
  cbv zeta.
  assert (Hi : "f1" <> "") by discriminate.
  assert (Hd : "d1" <> "") by discriminate.
  destruct (X11_deletePicture_cannot_be_retried "f1" "d1"
              (failing [false; true] catWorld) [] Hi Hd eq_refl)
    as (_ & _ & _ & _ & Horphan).
  destruct (Horphan eq_refl) as (Hf & Hh).
  split; [exact Hi|]. split; [exact Hd|].
  split; [reflexivity|]. split; [reflexivity|].
  split; [exact Hf | exact Hh].
Defined.

(** ** The fetch effect and the gallery *)

(** X12. A fetch transition does not trigger itself: it changes only
    [loading] and [imageList], which are no dependencies of an effect, so
    the render after it runs no effect of [Home]. *)
Theorem X12_fetchEffect_does_not_retrigger (w : World) :
  homeEffects (home w) (run fetchEffect w) = (Ok tt, run fetchEffect w).
Proof.
  destruct (fetchEffect_state w) as (_ & Hh & _). cbv zeta in Hh.
  rewrite homeEffects_same_text by now rewrite Hh.
  rewrite Hh.
  cbn [upd_loading upd_imageList debouncedSearchTerm totalImageNumber refreshFetch].
  now rewrite String.eqb_refl, Z.eqb_refl, Bool.eqb_reflx.
Qed.

(** X13. After a fetch transition the gallery never shows the loading
    heading: it shows one card per matching record, keyed by [imageId],
    or the placeholder.  A rejected request and an empty result look the
    same: both show the placeholder. *)
Theorem X13_gallery_after_fetch (w : World) :
  let q := debouncedSearchTerm (home w) in
  let gallery := renderGallery (home (run fetchEffect w)) in
  gallery = renderGrid (fetched q w)
  /\ ~ In LoadingHeading gallery
  /\ (next_fails w = true \/ filter (startsWith q) (docs w) = [] ->
      gallery = [Img "./no-image.png" "No images found"])
  /\ (next_fails w = false -> filter (startsWith q) (docs w) <> [] ->
      map elementKey gallery
      = map (fun d => Some (dImageId (docData d))) (filter (startsWith q) (docs w))).
Proof.
  cbv zeta. destruct (fetchEffect_state w) as (_ & Hh & _). cbv zeta in Hh.
  rewrite Hh. unfold renderGallery.
  cbn [upd_loading upd_imageList loading imageList].
  split; [reflexivity|]. split; [|split].
  - unfold renderGrid. destruct (0 <? length _)%nat.
    + intro Hin. apply in_map_iff in Hin as (x & Hx & _). discriminate.
    + intros [H|[]]. discriminate.
  - unfold fetched. intros [-> | Hempty]; [reflexivity|].
    rewrite Hempty. now destruct (next_fails w).
  - intros Hf Hne. unfold fetched. rewrite Hf.
    destruct (filter (startsWith (debouncedSearchTerm (home w))) (docs w))
      as [|x l]; [contradiction|].
    unfold renderGrid. cbn [map length Nat.ltb Nat.leb].
    rewrite !map_map. reflexivity.
Qed.

Lemma X13_gallery_after_fetch_witness :
  (next_fails (failing [true] catWorld) = true
   /\ renderGallery (home (run fetchEffect (failing [true] catWorld)))
      = [Img "./no-image.png" "No images found"])
  /\ (next_fails catWorld = false
      /\ filter (startsWith (debouncedSearchTerm (home catWorld))) (docs catWorld) <> []
      /\ map elementKey (renderGallery (home (run fetchEffect catWorld)))
         = [Some "f1"; Some "f2"]).
Proof.
  destruct (X13_gallery_after_fetch (failing [true] catWorld)) as (_ & _ & Hfail & _).
  destruct (X13_gallery_after_fetch catWorld) as (_ & _ & _ & Hkeys).
  assert (Hne : filter (startsWith (debouncedSearchTerm (home catWorld)))
                  (docs catWorld) <> []) by discriminate.
  split.
  - split; [reflexivity | exact (Hfail (or_introl eq_refl))].
  - split; [reflexivity|]. split; [exact Hne | exact (Hkeys eq_refl Hne)].
Defined.

(** ** The count on mount *)

Lemma countEffect_run (isMounted : bool) (w : World) :
  countEffect isMounted w =
  let w1 := emit (ConsoleLog "Total images count fetched:" [ArgNum (counted w)])
              (run getTotalPicturesCount w) in
  (Ok tt, if isMounted
          then run (setTotalImageNumber (fun _ => counted w)) w1
          else w1).
Proof.
  unfold countEffect, try_catch, bind, run, counted.
  rewrite getTotalPicturesCount_run.
  destruct (next_fails w), isMounted; reflexivity.
Qed.

Lemma getTotalPicturesCount_keeps (w : World) :
  let w' := run getTotalPicturesCount w in
  home w' = home w /\ docs w' = docs w /\ files w' = files w
  /\ faults w' = tl (faults w)
  /\ fetches (trace w') = fetches (trace w) ++ [[]].
Proof.
  cbv zeta. unfold run. rewrite getTotalPicturesCount_run.
  destruct (next_fails w); (do 4 (split; [reflexivity|])); now fetches_norm.
Qed.

Lemma countEffect_state (isMounted : bool) (w : World) :
  let w' := run (countEffect isMounted) w in
  countEffect isMounted w = (Ok tt, w')
  /\ home w' = (if isMounted then upd_totalImageNumber (counted w) (home w) else home w)
  /\ docs w' = docs w
  /\ files w' = files w
  /\ faults w' = tl (faults w)
  /\ fetches (trace w') = fetches (trace w) ++ [[]].
Proof.
  cbv zeta.
  destruct (getTotalPicturesCount_keeps w) as (Hh & Hd & Hf & Hfl & Hq).
  cbv zeta in Hh, Hd, Hf, Hfl, Hq.
  unfold run at 1 2 3 4 5 6. rewrite countEffect_run. cbv zeta. cbn [snd].
  set (w0 := run getTotalPicturesCount w) in *.
  destruct isMounted; (split; [reflexivity|]); unfold run;
    cbn [snd setTotalImageNumber emit set_home home docs files faults];
    rewrite ?Hh, ?Hd, ?Hf, ?Hfl; (do 4 (split; [reflexivity|]));
    rewrite <- Hq; now fetches_norm.
Qed.

(** X14. The count effect never fails.  While the component is mounted it
    sets the displayed total to the number of documents, or to 0 when the
    request is rejected; after the cleanup has run it leaves the page
    state alone.  It never changes the store. *)
Theorem X14_countEffect_sets_total (isMounted : bool) (w : World) :
  let w' := run (countEffect isMounted) w in
  result (countEffect isMounted) w = Ok tt
  /\ home w'
     = (if isMounted then upd_totalImageNumber (counted w) (home w) else home w)
  /\ totalImageNumber (home w')
     = (if isMounted then counted w else totalImageNumber (home w))
  /\ docs w' = docs w
  /\ files w' = files w.
Proof.
  cbv zeta.
  destruct (countEffect_state isMounted w) as (Hrun & Hh & Hd & Hf & _).
  cbv zeta in Hrun, Hh, Hd, Hf.
  unfold result. rewrite Hrun, Hh, Hd, Hf. cbn [fst].
  destruct isMounted; now repeat split.
Qed.

(** ** The render after an upload *)

Lemma handleUpload_home (f : File) (w : World) :
  image (upload w) = Some f ->
  home (run handleUpload w)
  = if upload_succeeds f w
    then upd_totalImageNumber (totalImageNumber (home w) + 1) (home w)
    else home w.
Proof.
  intro Hi. destruct (upload_succeeds f w) eqn:Hs.
  - unfold run at 1. rewrite (handleUpload_succeeds f w Hi Hs). cbv zeta. cbn [snd].
    destruct (updatePictureDatabase_keeps (Val (sfId (newBlob w f))) (Val (name f))
                (Val (ValidDate (now w))) (snd (uploadPicture f w))) as (Hh & _).
    set (w2 := run (updatePictureDatabase _ _ _) _) in *.
    unfold run. cbn [snd setTotalImageNumber emit set_home home].
    rewrite Hh, (uploadPicture_succeeds f w Hs). reflexivity.
  - destruct (uploadPicture_null f w Hs) as (w1 & Hu & Hh & _).
    unfold run. rewrite (handleUpload_run f w w1 Null Hi Hu). exact Hh.
Qed.

Lemma uploadFlow_run (f : File) (w : World) :
  toUpload (upload w) = true ->
  image (upload w) = Some f ->
  uploadFlow w =
  if upload_succeeds f w
  then fetchEffect (run uploadEffect w)
  else (Ok tt, run uploadEffect w).
Proof.
  intros Ht Hi.
  assert (Hh : home (run uploadEffect w) = home (run handleUpload w))
    by now rewrite (uploadEffect_world w Ht).
  rewrite (handleUpload_home f w Hi) in Hh.
  unfold uploadFlow, rendering, bind, get_home.
  assert (Hr : uploadEffect w = (Ok tt, run uploadEffect w))
    by (unfold run; now rewrite (uploadEffect_run w Ht)).
  rewrite Hr. set (w1 := run uploadEffect w) in *.
  rewrite homeEffects_same_text by (rewrite Hh; now destruct (upload_succeeds f w)).
  rewrite Hh. destruct (upload_succeeds f w).
  - cbn [upd_totalImageNumber debouncedSearchTerm totalImageNumber refreshFetch].
    replace (totalImageNumber (home w) + 1 =? totalImageNumber (home w)) with false
      by (symmetry; apply Z.eqb_neq; lia).
    now rewrite andb_false_r.
  - now rewrite String.eqb_refl, Z.eqb_refl, Bool.eqb_reflx.
Qed.

(** X16. After the upload effect the page refetches exactly when
    [uploadPicture] returned an identifier: a refused or failed upload
    causes no fetch and leaves the list as it was.  For a file of unused
    name, when the service accepts the four requests, the list becomes
    the matching records of the collection with the new record at its
    end, so that the new picture is shown whenever its name starts with
    the debounced term. *)
Theorem X16_uploadFlow_shows_new_picture (f : File) (w : World) :
  toUpload (upload w) = true ->
  image (upload w) = Some f ->
  let q := debouncedSearchTerm (home w) in
  let w' := run uploadFlow w in
  result uploadFlow w = Ok tt
  /\ fetches (trace w')
     = fetches (trace (run uploadEffect w))
         ++ (if upload_succeeds f w then [queryFor q] else [])
  /\ (upload_succeeds f w = false -> w' = run uploadEffect w)
  /\ (name_taken (name f) w = false -> accepts 4 w = true ->
      imageList (home w')
      = map toImage (filter (startsWith q) (docs w ++ [newRecord w f]))
      /\ totalImageNumber (home w') = totalImageNumber (home w) + 1
      /\ (String.prefix q (name f) = true ->
          In (toImage (newRecord w f)) (imageList (home w')))).
Proof.
  intros Ht Hi. cbv zeta.
  pose proof (uploadFlow_run f w Ht Hi) as Hflow.
  assert (Hh1 : home (run uploadEffect w) = home (run handleUpload w))
    by now rewrite (uploadEffect_world w Ht).
  rewrite (handleUpload_home f w Hi) in Hh1.
  destruct (fetchEffect_state (run uploadEffect w))
    as (R & H & D & _ & _ & _ & _ & Q).
  cbv zeta in R, H, Q.
  unfold result, run at 1 3 4 5 6 7. rewrite Hflow.
  destruct (upload_succeeds f w) eqn:Hs.
  - rewrite R. cbn [fst snd]. rewrite Q, H, Hh1.
    cbn [upd_totalImageNumber upd_loading upd_imageList debouncedSearchTerm
           totalImageNumber imageList].
    split; [reflexivity|]. split; [reflexivity|]. split; [discriminate|].
    intros Hn Ha.
    assert (Ha3 : accepts 3 w = true).
    { apply accepts_S in Ha as [H1 Ha]. apply accepts_S in Ha as [H2 Ha].
      apply accepts_S in Ha as [H3 _].
      apply accepts_S. split; [assumption|]. apply accepts_S. split; [assumption|].
      now apply accepts_S. }
    pose proof (uploadEffect_success f w Ht Hi Hn Ha3) as Hw1. cbv zeta in Hw1.
    assert (Hd1 : docs (run uploadEffect w) = docs w ++ [newRecord w f])
      by now rewrite Hw1.
    assert (Hf1 : next_fails (run uploadEffect w) = false).
    { rewrite Hw1.
      apply accepts_S in Ha as [_ Ha]. apply accepts_S in Ha as [_ Ha].
      apply accepts_S in Ha as [_ Ha]. apply accepts_S in Ha as [H4 _].
      exact H4. }
    unfold fetched. rewrite Hf1, Hd1.
    split; [reflexivity|]. split; [reflexivity|].
    intro Hp. apply in_map. apply filter_In. split.
    + apply in_or_app. right. now left.
    + exact Hp.
  - cbn [fst snd]. rewrite app_nil_r.
    split; [reflexivity|]. split; [reflexivity|]. split; [reflexivity|].
    intros Hn Ha. exfalso.
    unfold upload_succeeds in Hs. rewrite Hn in Hs. cbn [negb andb] in Hs.
    apply accepts_S in Ha as [H1 Ha]. apply accepts_S in Ha as [H2 _].
    assert (accepts 2 w = true)
      by (apply accepts_S; split; [assumption|]; now apply accepts_S).
    congruence.
Qed.

Lemma X16_uploadFlow_shows_new_picture_witness :
  let w := selected dogFile catWorld in
  toUpload (upload w) = true
  /\ image (upload w) = Some dogFile
  /\ name_taken (name dogFile) w = false
  /\ accepts 4 w = true
  /\ String.prefix (debouncedSearchTerm (home w)) (name dogFile) = true
  /\ imageList (home (run uploadFlow w))
     = [toImage catDocument; toImage carDocument; toImage (newRecord w dogFile)]
  /\ In (toImage (newRecord w dogFile)) (imageList (home (run uploadFlow w))).
Proof.
  cbv zeta.
  destruct (X16_uploadFlow_shows_new_picture dogFile (selected dogFile catWorld)
              eq_refl eq_refl) as (_ & _ & _ & Hok).
  destruct (Hok eq_refl eq_refl) as (Hlist & _ & Hin).
  do 5 (split; [reflexivity|]).
  split; [exact Hlist | exact (Hin eq_refl)].
Defined.
